(** * node: src/crypto/crypto_x509.cc

    A shallow embedding of the X509Certificate binding: the identity
    verifier (CheckHost, CheckEmail, CheckIP, CheckIssued, CheckPrivateKey,
    Verify), the decoder (Parse), the ownership of the decoded certificate
    (ManagedX509, the shared handle, the transfer data) and the extraction
    of the peer certificates of a session (GetPeerCert).

    OpenSSL, v8 and the helpers declared in other files of node are
    collaborators of this file: their primitives are the fields of the
    class [Collaborators] below, and every definition and theorem is stated
    for an arbitrary instance of it. *)

From Stdlib Require Import ZArith String List Bool Lia.
From stdpp Require Import base option gmap.

Import ListNotations.
Local Open Scope Z_scope.

(** ** The collaborators *)

(** A byte buffer, as an ArrayBufferView exposes it. *)
Abbreviation bytes := (list Byte.byte).

(** Addresses of heap objects (an [X509*], a [ManagedX509*]). *)
Abbreviation addr := positive.

(** The primitives this file calls.  [X509] is the decoded certificate an
    [X509*] points to, [EVP_PKEY] the key material behind a key object.
    A primitive that reports through the per-thread error queue returns the
    error codes it raises, oldest first. *)
Class Collaborators := {
  X509 : Type;
  EVP_PKEY : Type;
  Isolate : Type;
  (* X509_check_host(cert, name, namelen, flags, &peername): the return
     code and the string left in peername, if any. *)
  X509_check_host : X509 -> string -> Z -> Z * option string;
  X509_check_email : X509 -> string -> Z -> Z;
  X509_check_ip_asc : X509 -> string -> Z -> Z;
  (* X509_check_issued(issuer, subject) *)
  X509_check_issued : X509 -> X509 -> Z;
  X509_check_private_key : X509 -> EVP_PKEY -> Z;
  X509_verify : X509 -> EVP_PKEY -> Z;
  (* PEM_read_bio_X509_AUX on a BIO: the certificate read, if any,
     the errors raised and what is left unread in the BIO. *)
  PEM_read_bio_X509_AUX : bytes -> option X509 * list Z * bytes;
  (* d2i_X509(nullptr, &data, len): the certificate and the errors. *)
  d2i_X509 : bytes -> option X509 * list Z;
  (* X509_dup: the content of the copy, or failure. *)
  X509_dup : X509 -> option X509;
  (* BIOPointer LoadBIO(env, value): the content of the memory BIO. *)
  LoadBIO : bytes -> option bytes * list Z;
  (* v8: FunctionTemplate::GetFunction and Function::NewInstance; each
     succeeds or leaves an exception pending. *)
  GetFunction : Isolate -> bool * Isolate;
  NewInstance : Isolate -> bool * Isolate;
  (* enum class X509Certificate::GetPeerCertificateFlag *)
  SERVER : Z;
  ABBREVIATED : Z;
}.

Definition X509_V_OK : Z := 0.

(** ** JavaScript values and the ways a binding returns *)

Inductive KeyType := kKeyTypeSecret | kKeyTypePublic | kKeyTypePrivate.

Definition KeyType_eqb (a b : KeyType) : bool :=
  match a, b with
  | kKeyTypeSecret, kKeyTypeSecret => true
  | kKeyTypePublic, kKeyTypePublic => true
  | kKeyTypePrivate, kKeyTypePrivate => true
  | _, _ => false
  end.

Inductive Error :=
  | ERR_INVALID_ARG_VALUE (message : string)
  | ERR_CRYPTO_OPERATION_FAILED
  | ERR_MESSAGE_TARGET_CONTEXT_UNAVAILABLE
  (* ThrowCryptoError(env, err): the error built from an OpenSSL code *)
  | CryptoError (err : Z)
  (* an exception v8 itself left pending *)
  | PendingException.

(** How a call comes back: a value ([Returned]), a thrown error, a failed
    CHECK ([Aborted]), or [Unspecified] where the source casts a wrapped
    object to a class without checking it. *)
Inductive Result (A : Type) :=
  | Returned (a : A)
  | Threw (e : Error)
  | Aborted
  | Unspecified.
Arguments Returned {A} a.
Arguments Threw {A} e.
Arguments Aborted {A}.
Arguments Unspecified {A}.

Section Values.
Context `{lib : Collaborators}.

(** key->Data() *)
Record KeyObjectData := {
  GetKeyType : KeyType;
  GetAsymmetricKey : EVP_PKEY;
}.

(** A wrapped object is represented by what unwrapping it reaches: the
    decoded certificate of an X509Certificate ([cert->get()]), the key
    data of a KeyObjectHandle. *)
Inductive Object :=
  | PlainObject
  | X509Object (cert : X509)
  | KeyObject (key : KeyObjectData).

Inductive Value :=
  | VUndefined
  | VBoolean (b : bool)
  | VString (s : string)
  | VUint32 (n : Z)
  | VArrayBufferView (data : bytes)
  | VObject (o : Object).

(** args[i]: undefined past the end of the argument list. *)
Definition arg (i : nat) (args : list Value) : Value :=
  nth i args VUndefined.

Definition Completion := Result Value.

(** A C string stops at its first NUL. *)
Fixpoint c_str (s : string) : string :=
  match s with
  | EmptyString => EmptyString
  | String c r =>
      if Ascii.eqb c Ascii.zero then EmptyString else String c (c_str r)
  end.

(** ** Identity verifier *)



(** X509Certificate::CheckIP: the address is passed as a C string. *)
Definition CheckIP (cert : X509) (args : list Value) : Completion :=
  match arg 0 args with
  | VString name =>
      match arg 1 args with
      | VUint32 flags =>
          match X509_check_ip_asc cert (c_str name) flags with
          | 1 => Returned (arg 0 args)
          | 0 => Returned VUndefined
          | -2 => Threw (ERR_INVALID_ARG_VALUE "Invalid IP")
          | _ => Threw ERR_CRYPTO_OPERATION_FAILED
          end
      | _ => Aborted
      end
  | _ => Aborted
  end.

(** X509Certificate::CheckIssued: both CHECKs, then the pairwise test
    with the argument as issuer and the receiver as subject. *)
Definition CheckIssued (cert : X509) (args : list Value) : Completion :=
  match arg 0 args with
  | VObject (X509Object issuer) =>
      Returned (VBoolean (X509_check_issued issuer cert =? X509_V_OK))
  | _ => Aborted
  end.

(** X509Certificate::CheckPrivateKey.  CHECK(args[0]->IsObject()) passes
    on every object, an ArrayBufferView being one; what unwrapping an
    object that is no KeyObjectHandle gives is not decided by this file. *)
Definition CheckPrivateKey (cert : X509) (args : list Value) : Completion :=
  match arg 0 args with
  | VObject (KeyObject key) =>
      if KeyType_eqb (GetKeyType key) kKeyTypePrivate
      then Returned (VBoolean
             (X509_check_private_key cert (GetAsymmetricKey key) =? 1))
      else Aborted
  | VObject _ | VArrayBufferView _ => Unspecified
  | _ => Aborted
  end.

(** X509Certificate::Verify, with the same CHECK on args[0]. *)
Definition Verify (cert : X509) (args : list Value) : Completion :=
  match arg 0 args with
  | VObject (KeyObject key) =>
      if KeyType_eqb (GetKeyType key) kKeyTypePublic
      then Returned (VBoolean
             (0 <? X509_verify cert (GetAsymmetricKey key)))
      else Aborted
  | VObject _ | VArrayBufferView _ => Unspecified
  | _ => Aborted
  end.

End Values.

(** ** The state the bindings run in *)

Section State.
Context `{lib : Collaborators}.

(** X509Pointer, a unique_ptr whose deleter is X509_free: [None] is
    nullptr. *)
Definition X509Pointer := option addr.

(** ManagedX509 has the one member cert_. *)
Record ManagedX509 := { cert_ : X509Pointer }.

(** The heap of X509 objects (decoded content and OpenSSL reference
    count), the ManagedX509 objects held through a shared_ptr (object and
    use count), the error queue of the thread (oldest first, each entry
    with its mark) and the state of v8. *)
Record World := {
  x509s : gmap addr (X509 * nat);
  managed : gmap addr (ManagedX509 * nat);
  error_queue : list (Z * bool);
  isolate : Isolate;
}.

Definition M (A : Type) : Type := World -> A * World.

Definition ret {A} (a : A) : M A := fun w => (a, w).

Definition bind {A B} (m : M A) (k : A -> M B) : M B :=
  fun w => let '(a, w') := m w in k a w'.

Definition set_x509s (f : gmap addr (X509 * nat) -> gmap addr (X509 * nat))
  : M unit :=
  fun w => (tt, {| x509s := f (x509s w); managed := managed w;
                   error_queue := error_queue w; isolate := isolate w |}).

Definition set_managed
  (f : gmap addr (ManagedX509 * nat) -> gmap addr (ManagedX509 * nat))
  : M unit :=
  fun w => (tt, {| x509s := x509s w; managed := f (managed w);
                   error_queue := error_queue w; isolate := isolate w |}).

Definition set_error_queue (f : list (Z * bool) -> list (Z * bool))
  : M unit :=
  fun w => (tt, {| x509s := x509s w; managed := managed w;
                   error_queue := f (error_queue w);
                   isolate := isolate w |}).

Definition v8_call (f : Isolate -> bool * Isolate) : M bool :=
  fun w => let '(ok, i) := f (isolate w) in
           (ok, {| x509s := x509s w; managed := managed w;
                   error_queue := error_queue w; isolate := i |}).

End State.

Notation "x <- c1 ;; c2" := (bind c1 (fun x => c2))
  (at level 100, c1 at next level, right associativity).
Notation "c1 ;; c2" := (bind c1 (fun _ => c2))
  (at level 100, right associativity).

Section Runtime.
Context `{lib : Collaborators}.

(** *** The OpenSSL error queue *)

(** A failing primitive appends the codes it raises. *)
Definition raise (es : list Z) : M unit :=
  set_error_queue (fun q => q ++ map (fun e => (e, false)) es).

(** ERR_get_error: the earliest error, removed from the queue; 0 when
    the queue is empty. *)
Definition ERR_get_error : M Z :=
  fun w =>
    match error_queue w with
    | [] => (0, w)
    | (e, _) :: q => (e, snd (set_error_queue (fun _ => q) w))
    end.

Definition ERR_clear_error : M unit := set_error_queue (fun _ => []).

(** ERR_set_mark marks the latest entry, if there is one. *)
Definition set_mark (q : list (Z * bool)) : list (Z * bool) :=
  match rev q with
  | [] => []
  | (e, _) :: r => rev ((e, true) :: r)
  end.

(** ERR_pop_to_mark removes entries, latest first, down to the marked
    one, whose mark it clears. *)
Fixpoint pop_latest (r : list (Z * bool)) : list (Z * bool) :=
  match r with
  | [] => []
  | (e, true) :: r' => (e, false) :: r'
  | (_, false) :: r' => pop_latest r'
  end.

Definition pop_to_mark (q : list (Z * bool)) : list (Z * bool) :=
  rev (pop_latest (rev q)).

Definition ERR_set_mark : M unit := set_error_queue set_mark.
Definition ERR_pop_to_mark : M unit := set_error_queue pop_to_mark.

(** ClearErrorOnReturn clears the error queue when the scope it is declared
    in is left; MarkPopErrorOnReturn sets a mark where it is declared and
    pops to it when its scope is left. *)
Definition ClearErrorOnReturn {A} (scope : M A) : M A :=
  r <- scope ;; ERR_clear_error ;; ret r.

Definition MarkPopErrorOnReturn {A} (scope : M A) : M A :=
  ERR_set_mark ;; r <- scope ;; ERR_pop_to_mark ;; ret r.

(** *** Reference counts *)

(** X509_up_ref adds one reference to a live object. *)
Definition add_ref (a : addr) (h : gmap addr (X509 * nat))
  : gmap addr (X509 * nat) :=
  alter (fun o => (fst o, S (snd o))) a h.

Definition X509_up_ref (a : addr) : M unit := set_x509s (add_ref a).

(** X509_free drops one reference and destroys the object with the last
    one.  (A pointer to a destroyed object leaves the heap as it is.) *)
Definition drop_ref (a : addr) (h : gmap addr (X509 * nat))
  : gmap addr (X509 * nat) :=
  match h !! a with
  | Some (c, S (S n)) => <[a := (c, S n)]> h
  | Some _ => delete a h
  | None => h
  end.

Definition X509_free (a : addr) : M unit := set_x509s (drop_ref a).

(** A freshly decoded or duplicated certificate: a new object with one
    reference. *)
Definition X509_alloc (c : X509) : M addr :=
  fun w => let a := fresh (dom (x509s w)) in
           (a, snd (set_x509s (fun h => <[a := (c, 1%nat)]> h) w)).

(** The destructor of an X509Pointer. *)
Definition X509Pointer_delete (p : X509Pointer) : M unit :=
  match p with
  | Some a => X509_free a
  | None => ret tt
  end.

(** unique_ptr::reset(q): hold q, delete what was held. *)
Definition X509Pointer_reset (p q : X509Pointer) : M X509Pointer :=
  X509Pointer_delete p ;; ret q.

(** ManagedX509::operator=(const ManagedX509& that) on [this]. *)
Definition ManagedX509_assign (this that : ManagedX509) : M ManagedX509 :=
  p <- X509Pointer_reset (cert_ this) (cert_ that) ;;
  match p with
  | Some a => X509_up_ref a
  | None => ret tt
  end ;;
  ret {| cert_ := p |}.

(** ManagedX509::ManagedX509(const ManagedX509& that): *this = that on a
    fresh object. *)
Definition ManagedX509_copy (that : ManagedX509) : M ManagedX509 :=
  ManagedX509_assign {| cert_ := None |} that.

(** ManagedX509::~ManagedX509 destroys cert_. *)
Definition ManagedX509_destroy (m : ManagedX509) : M unit :=
  X509Pointer_delete (cert_ m).

(** std::shared_ptr<ManagedX509>: a new control block, a copy, the
    destructor of one owner. *)
Definition shared_new (m : ManagedX509) : M addr :=
  fun w => let p := fresh (dom (managed w)) in
           (p, snd (set_managed (fun h => <[p := (m, 1%nat)]> h) w)).

Definition shared_copy (p : addr) : M unit :=
  set_managed (alter (fun o => (fst o, S (snd o))) p).

Definition shared_release (p : addr) : M unit :=
  fun w =>
    match managed w !! p with
    | Some (m, S (S n)) => set_managed (fun h => <[p := (m, S n)]> h) w
    | Some (m, _) => (set_managed (delete p) ;; ManagedX509_destroy m) w
    | None => (tt, w)
    end.

End Runtime.

Section Certificate.
Context `{lib : Collaborators}.

(** ** X509Certificate *)

(** An Environment, with the context it runs (env->context()). *)
Record Environment := { env_id : nat; context : nat }.

(** The native object behind an X509Certificate: the environment it is
    bound to and its member cert_, a shared_ptr<ManagedX509> (named
    [shared_cert_] here, ManagedX509 having a cert_ of its own). *)
Record X509Certificate := {
  env : Environment;
  shared_cert_ : addr;
}.

(** X509Certificate::New(env, std::shared_ptr<ManagedX509> cert).  The
    parameter is received by value: it owns one reference, which goes to
    the new object, or is given up when v8 fails and the parameter is
    destroyed on return. *)
Definition New_shared (e : Environment) (cert : addr)
  : M (Result X509Certificate) :=
  ok <- v8_call GetFunction ;;
  if negb ok then shared_release cert ;; ret (Threw PendingException)
  else
    ok <- v8_call NewInstance ;;
    if negb ok then shared_release cert ;; ret (Threw PendingException)
    else ret (Returned {| env := e; shared_cert_ := cert |}).

(** X509Certificate::New(env, X509Pointer cert) *)
Definition New (e : Environment) (cert : X509Pointer)
  : M (Result X509Certificate) :=
  mcert <- shared_new {| cert_ := cert |} ;;
  New_shared e mcert.

(** X509Certificate::get(): the X509 the object reaches through cert_, and
    the decoded certificate found there. *)
Definition get (this : X509Certificate) (w : World) : X509Pointer :=
  match managed w !! shared_cert_ this with
  | Some (m, _) => cert_ m
  | None => None
  end.

Definition decoded (this : X509Certificate) (w : World) : option X509 :=
  match get this w with
  | Some a => fst <$> x509s w !! a
  | None => None
  end.

(** Both v8 calls of New succeed in this state. *)
Definition v8_ok (w : World) : Prop :=
  fst (GetFunction (isolate w)) = true /\
  fst (NewInstance (snd (GetFunction (isolate w)))) = true.

(** *** Decoder *)

(** X509Certificate::Parse.  [data_len] is an unsigned: the length of the
    view modulo 2^32. *)
Definition Parse (e : Environment) (args : list Value)
  : M (Result X509Certificate) :=
  match arg 0 args with
  | VArrayBufferView data =>
      let data_len := Z.of_nat (length data) mod 2 ^ 32 in
      ClearErrorOnReturn
        (let '(bio, es) := LoadBIO data in
         raise es ;;
         match bio with
         | None =>
             err <- ERR_get_error ;; ret (Threw (CryptoError err))
         | Some bio =>
             let '(pem, es, _) := PEM_read_bio_X509_AUX bio in
             raise es ;;
             match pem with
             | None =>
                 (* Try as DER, but return the original PEM failure if it
                    isn't DER. *)
                 MarkPopErrorOnReturn
                   (let '(der, es) :=
                      d2i_X509 (firstn (Z.to_nat data_len) data) in
                    raise es ;;
                    match der with
                    | None =>
                        err <- ERR_get_error ;;
                        ret (Threw (CryptoError err))
                    | Some c =>
                        der <- X509_alloc c ;; New e (Some der)
                    end)
             | Some c =>
                 pem <- X509_alloc c ;; New e (Some pem)
             end
         end)
  | _ => ret Aborted
  end.

(** *** Transfer adapter *)

(** X509CertificateTransferData has the one member data_. *)
Record X509CertificateTransferData := { data_ : addr }.

(** BaseObject::TransferMode, and X509Certificate::GetTransferMode: an
    X509Certificate is sent by cloning, the sender keeps its object. *)
Inductive TransferMode := kUntransferable | kTransferable | kCloneable.

Definition GetTransferMode (this : X509Certificate) : TransferMode :=
  kCloneable.

(** X509Certificate::CloneForMessaging: the transfer data is built from a
    copy of cert_. *)
Definition CloneForMessaging (this : X509Certificate)
  : M X509CertificateTransferData :=
  shared_copy (shared_cert_ this) ;;
  ret {| data_ := shared_cert_ this |}.

(** X509CertificateTransferData::Deserialize(env, context, self).  New
    receives a copy of data_; [self], a unique_ptr received by value, is
    destroyed on return and releases data_. *)
Definition Deserialize (this : X509CertificateTransferData)
    (e : Environment) (ctx : nat) : M (Result X509Certificate) :=
  r <- (if negb (Nat.eqb ctx (context e))
        then ret (Threw ERR_MESSAGE_TARGET_CONTEXT_UNAVAILABLE)
        else shared_copy (data_ this) ;; New_shared e (data_ this)) ;;
  shared_release (data_ this) ;;
  ret r.

(** The operations on the owners of a decoded certificate: copying,
    assigning and destroying a ManagedX509, cloning an object for transfer,
    unpacking the transfer data, and the destruction of one owner of a
    shared ManagedX509 (an X509Certificate collected, a transfer data
    dropped). *)
Inductive Op :=
  | OpCopy (that : ManagedX509)
  | OpAssign (this that : ManagedX509)
  | OpDestroy (this : ManagedX509)
  | OpClone (this : X509Certificate)
  | OpDeserialize (this : X509CertificateTransferData)
      (e : Environment) (ctx : nat)
  | OpRelease (owner : addr).

Definition run (op : Op) (w : World) : World :=
  match op with
  | OpCopy that => snd (ManagedX509_copy that w)
  | OpAssign this that => snd (ManagedX509_assign this that w)
  | OpDestroy this => snd (ManagedX509_destroy this w)
  | OpClone this => snd (CloneForMessaging this w)
  | OpDeserialize this e ctx => snd (Deserialize this e ctx w)
  | OpRelease owner => snd (shared_release owner w)
  end.

(** What an operation may do to the decoded certificates: one that is
    still there has the content it had, one that is gone had at most one
    reference left. *)
Definition survives (h h' : gmap addr (X509 * nat)) : Prop :=
  forall (a : addr) (c : X509) (n : nat),
    h !! a = Some (c, n) ->
    match h' !! a with
    | Some (c', _) => c' = c
    | None => (n <= 1)%nat
    end.

(** Nothing is destroyed and no content changes between [h] and [h']; and
    the weaker: what is still there has the content it had. *)
Definition keeps (h h' : gmap addr (X509 * nat)) : Prop :=
  forall (a : addr) (c : X509) (n : nat),
    h !! a = Some (c, n) -> exists n', h' !! a = Some (c, n').

Definition content_kept (h h' : gmap addr (X509 * nat)) : Prop :=
  forall (a : addr) (c : X509) (n : nat),
    h !! a = Some (c, n) ->
    match h' !! a with
    | Some (c', _) => c' = c
    | None => True
    end.

(** As [keeps], but for one reference dropped at the end. *)
Definition keeps_but_one (h h1 : gmap addr (X509 * nat)) : Prop :=
  exists h', keeps h h' /\ (h1 = h' \/ exists x, h1 = drop_ref x h').

(** A computation that destroys no decoded certificate and changes none,
    from any state with the certificates of [w0]. *)
Definition keeps_certificates {A} (m : M A) : Prop :=
  forall w0 w : World,
    x509s w = x509s w0 -> keeps (x509s w0) (x509s (snd (m w))).

(** *** Session extractor *)

(** What this file reads from a session: the peer certificate and the
    peer chain, a STACK_OF(X509) that may be NULL. *)
Record SSL := {
  peer_certificate : X509Pointer;
  peer_cert_chain : option (list addr);
}.

(** SSL_get_peer_certificate returns the certificate with one more
    reference, SSL_get_peer_cert_chain lends the stack of the session. *)
Definition SSL_get_peer_certificate (ssl : SSL) : M X509Pointer :=
  match peer_certificate ssl with
  | Some a => X509_up_ref a ;; ret (Some a)
  | None => ret None
  end.

Definition SSL_get_peer_cert_chain (ssl : SSL) : option (list addr) :=
  peer_cert_chain ssl.

Definition sk_X509_num (sk : option (list addr)) : Z :=
  match sk with
  | Some l => Z.of_nat (length l)
  | None => -1
  end.

Definition sk_X509_value (sk : option (list addr)) (i : nat) : X509Pointer :=
  match sk with
  | Some l => nth_error l i
  | None => None
  end.

Definition is_null {A} (p : option A) : bool :=
  match p with
  | None => true
  | Some _ => false
  end.

(** X509_dup on a pointer: a new object holding the copy.  A pointer to
    no live object counts as a failure. *)
Definition X509_dup_ptr (p : X509Pointer) : M X509Pointer :=
  fun w =>
    match p ≫= (fun a => x509s w !! a) with
    | Some (c, _) =>
        match X509_dup c with
        | Some c' => (a <- X509_alloc c' ;; ret (Some a)) w
        | None => (None, w)
        end
    | None => (None, w)
    end.

(** The loop of GetPeerCert from index [i], [fuel] iterations left, on
    the vector [certs].  An empty MaybeLocal is [Returned None] when
    nothing was thrown. *)
Fixpoint GetPeerCert_loop (e : Environment) (ssl_certs : option (list addr))
    (fuel i : nat) (certs : list X509Certificate)
  : M (Result (option (list X509Certificate))) :=
  match fuel with
  | O => ret (Returned (Some certs))
  | S fuel' =>
      cert <- X509_dup_ptr (sk_X509_value ssl_certs i) ;;
      match cert with
      | None => ret (Returned None)
      | Some _ =>
          obj <- New e cert ;;
          match obj with
          | Returned obj =>
              GetPeerCert_loop e ssl_certs fuel' (S i) (certs ++ [obj])
          | Threw err => ret (Threw err)
          | Aborted => ret Aborted
          | Unspecified => ret Unspecified
          end
      end
  end.

(** The two bits GetPeerCert reads in its flag. *)
Definition is_server_flag (flag : Z) : bool := negb (Z.land flag SERVER =? 0).
Definition abbreviated_flag (flag : Z) : bool :=
  negb (Z.land flag ABBREVIATED =? 0).

(** X509Certificate::GetPeerCert *)
Definition GetPeerCert (e : Environment) (ssl : SSL) (flag : Z)
  : M (Result (option (list X509Certificate))) :=
  ClearErrorOnReturn
    (let is_server := is_server_flag flag in
     let abbreviated := abbreviated_flag flag in
     cert <- (if is_server then SSL_get_peer_certificate ssl
              else ret None) ;;
     let ssl_certs := SSL_get_peer_cert_chain ssl in
     if is_null cert &&
        (is_null ssl_certs || (sk_X509_num ssl_certs =? 0))
     then ret (Returned None)
     else
       let cert := match cert with
                   | None => sk_X509_value ssl_certs 0
                   | Some _ => cert
                   end in
       obj <- New e cert ;;
       match obj with
       | Returned obj =>
           let count := sk_X509_num ssl_certs in
           if abbreviated then ret (Returned (Some [obj]))
           else GetPeerCert_loop e ssl_certs (Z.to_nat count) 0 [obj]
       | Threw err => ret (Threw err)
       | Aborted => ret Aborted
       | Unspecified => ret Unspecified
       end).

(** The pointer GetPeerCert wraps first: the peer certificate when the
    flag asks for it and the session has one, else entry 0 of the chain. *)
Definition leading (is_server : bool) (ssl : SSL) : X509Pointer :=
  match (if is_server then peer_certificate ssl else None) with
  | Some a => Some a
  | None => sk_X509_value (peer_cert_chain ssl) 0
  end.

(** The entries of the chain GetPeerCert iterates over. *)
Definition chain_entries (ssl : SSL) : list addr :=
  default [] (peer_cert_chain ssl).

(** v8 succeeds in the next [n] calls of New. *)
Fixpoint v8_ok_n (n : nat) (i : Isolate) : Prop :=
  match n with
  | O => True
  | S n' =>
      fst (GetFunction i) = true /\
      fst (NewInstance (snd (GetFunction i))) = true /\
      v8_ok_n n' (snd (NewInstance (snd (GetFunction i))))
  end.

(** [h] holds a duplicate of the chain entry [a] made between [w] and
    [w']: an X509 object of its own, absent from [w], with one reference
    and the content X509_dup gave for the entry. *)
Definition duplicate_of (w w' : World) (a : addr) (h : X509Certificate)
  : Prop :=
  exists (a' : addr) (c c' : X509) (n : nat),
    x509s w !! a = Some (c, n) /\
    X509_dup c = Some c' /\
    get h w' = Some a' /\
    x509s w !! a' = None /\
    x509s w' !! a' = Some (c', 1%nat).

(** X509_dup fails on the entry [a] of [w]. *)
Definition cannot_duplicate (w : World) (a : addr) : Prop :=
  match x509s w !! a with
  | Some (c, _) => X509_dup c = None
  | None => True
  end.

(** The decoded certificates of the objects GetPeerCert returned. *)
Definition peer_contents
    (r : Result (option (list X509Certificate)) * World)
  : option (list (option X509)) :=
  match fst r with
  | Returned (Some certs) => Some (map (fun h => decoded h (snd r)) certs)
  | _ => None
  end.

End Certificate.

(** ** A test double of the collaborators

    Certificates and keys are numbers.  The names "foo.example.com" (through
    a stored wildcard name) and "test.local" match, "exa mple" is an invalid
    name and "boom" makes the primitive fail; certificate [n] is issued by
    certificate [n / 2] and signed with key [n / 2], which makes certificate
    0 its own issuer; certificate 13 cannot be duplicated.  The state of v8
    is the list of the outcomes of its next calls to NewInstance. *)
Definition toy : Collaborators := {|
  X509 := nat;
  EVP_PKEY := nat;
  Isolate := list bool;
  X509_check_host := fun _ name flags =>
    if String.eqb name "foo.example.com"
    then (if Z.land flags 2 =? 0 then (1, Some "*.example.com"%string)
          else (0, None))
    else if String.eqb name "test.local" then (1, None)
    else if String.eqb name "exa mple" then (-2, None)
    else if String.eqb name "boom" then (-1, None)
    else (0, None);
  X509_check_email := fun _ name _ =>
    if String.eqb name "admin@example.com" then 1
    else if String.eqb name "boom" then -1
    else if String.eqb name "not an address" then -2
    else 0;
  X509_check_ip_asc := fun _ name _ =>
    if String.eqb name "127.0.0.1" then 1
    else if String.eqb name "boom" then -1
    else if String.eqb name "localhost" then -2
    else 0;
  X509_check_issued := fun issuer subject =>
    if Nat.eqb issuer (Nat.div subject 2) then 0 else 29;
  X509_check_private_key := fun cert key => if Nat.eqb cert key then 1 else 0;
  X509_verify := fun cert key =>
    if Nat.eqb key (Nat.div cert 2) then 1
    else if Nat.eqb key 99 then -1
    else 0;
  PEM_read_bio_X509_AUX := fun bio =>
    match bio with
    | Byte.x2d :: rest => (Some (length rest), [], [])
    | _ => (None, [151584876], bio)
    end;
  d2i_X509 := fun data =>
    match data with
    | Byte.x30 :: rest => (Some (length rest), [])
    | _ => (None, [218529960; 218595386])
    end;
  X509_dup := fun cert => if Nat.eqb cert 13 then None else Some cert;
  LoadBIO := fun data => (Some data, []);
  GetFunction := fun script => (true, script);
  NewInstance := fun script =>
    match script with
    | [] => (true, [])
    | ok :: script' => (ok, script')
    end;
  SERVER := 1;
  ABBREVIATED := 2;
|}.


(** A key object of the test double. *)
Definition toy_key (type : KeyType) (key : nat) : @KeyObjectData toy :=
  @Build_KeyObjectData toy type key.

(** The peer certificates as the specification words them, on decoded
    certificates: the verified leaf first when the role is server-facing
    and there is one, otherwise the first entry of the raw chain; that
    certificate alone when abbreviated, otherwise followed by the remaining
    chain; absent only when there is no certificate at all. *)
Definition fromPeer_spec {X : Type} (is_server abbreviated : bool)
    (leaf : option X) (chain : list X) : option (list X) :=
  match (if is_server then leaf else None), chain with
  | Some l, _ => Some (if abbreviated then [l] else l :: chain)
  | None, c :: rest => Some (if abbreviated then [c] else c :: rest)
  | None, [] => None
  end.

(** ** States of the test double *)

(** Three certificates, 10, 20 and 13, each with one reference. *)
Definition toy_world : @World toy := {|
  x509s := {[ 1%positive := (10%nat, 1%nat);
              2%positive := (20%nat, 1%nat);
              3%positive := (13%nat, 1%nat) ]};
  managed := ∅;
  error_queue := [];
  isolate := ([] : list bool) : @Isolate toy;
|}.

Definition toy_env : Environment := {| env_id := 0; context := 7 |}.

(** One certificate held by one X509Certificate, [toy_cert], through the
    ManagedX509 at address 1. *)
Definition toy_shared_world : @World toy := {|
  x509s := {[ 1%positive := (10%nat, 1%nat) ]};
  managed := {[ 1%positive := ({| cert_ := Some 1%positive |}, 1%nat) ]};
  error_queue := [];
  isolate := ([] : list bool) : @Isolate toy;
|}.

Definition toy_cert : X509Certificate :=
  {| env := toy_env; shared_cert_ := 1%positive |}.

(** Sessions: a client-side one with a chain of two, one whose second
    entry cannot be duplicated, and a server-side one with a verified peer
    certificate and the rest of the chain. *)
Definition client_session : SSL :=
  {| peer_certificate := None;
     peer_cert_chain := Some [1%positive; 2%positive] |}.

Definition undupable_session : SSL :=
  {| peer_certificate := None;
     peer_cert_chain := Some [1%positive; 3%positive] |}.

Definition server_session : SSL :=
  {| peer_certificate := Some 1%positive;
     peer_cert_chain := Some [2%positive] |}.

(** What the specification expects of a call, read off the session: the
    contents of the certificates [fromPeer_spec] selects. *)
Definition fromPeer_expected `{lib : Collaborators} (w : World) (ssl : SSL)
    (flag : Z) : option (list (option X509)) :=
  map (fun a => fst <$> x509s w !! a) <$>
    fromPeer_spec (is_server_flag flag) (abbreviated_flag flag)
      (peer_certificate ssl) (chain_entries ssl).

(** ** The accessors and the local certificate *)

(** Further primitives: X509_check_ca, X509_get_pubkey (whatever pointer it
    returns is passed on unchecked), KeyObjectHandle::Create (which wraps
    the key data in a new object, or fails with an exception pending) and
    SSL_get_certificate, which lends the certificate of the session. *)
Class Accessors `{lib : Collaborators} := {
  X509_check_ca : X509 -> Z;
  X509_get_pubkey : X509 -> EVP_PKEY;
  KeyObjectHandle_Create : KeyObjectData -> bool;
  SSL_get_certificate : SSL -> X509Pointer;
}.

Section MoreBindings.
Context `{acc : Accessors}.

(** X509Certificate::CheckCA *)
Definition CheckCA (cert : X509) (args : list Value) : Completion :=
  Returned (VBoolean (X509_check_ca cert =? 1)).

(** X509Certificate::PublicKey: the key of the certificate as a key object
    of type kKeyTypePublic; no return value is set when Create fails. *)
Definition PublicKey (cert : X509) (args : list Value) : Completion :=
  let pkey := X509_get_pubkey cert in
  let key_data := {| GetKeyType := kKeyTypePublic;
                     GetAsymmetricKey := pkey |} in
  if KeyObjectHandle_Create key_data
  then Returned (VObject (KeyObject key_data))
  else Threw PendingException.

(** X509Certificate::GetCert: the certificate of the session, wrapped as
    it is. *)
Definition GetCert (e : Environment) (ssl : SSL)
  : M (Result (option X509Certificate)) :=
  ClearErrorOnReturn
    (match SSL_get_certificate ssl with
     | None => ret (Returned None)
     | Some cert =>
         obj <- New e (Some cert) ;;
         match obj with
         | Returned obj => ret (Returned (Some obj))
         | Threw err => ret (Threw err)
         | Aborted => ret Aborted
         | Unspecified => ret Unspecified
         end
     end).

(** A certificate is self-signed when its signature verifies under its own
    public key. *)
Definition self_signed (cert : X509) : bool :=
  0 <? X509_verify cert (X509_get_pubkey cert).

(** checkIssued as the specification words it: true exactly when the
    pairwise check of the issuer against the certificate succeeds, and true
    for every self-signed certificate against itself. *)
Definition checkIssued_as_specified : Prop :=
  forall C I : X509,
    (CheckIssued C [VObject (X509Object I)] = Returned (VBoolean true)
     <-> X509_check_issued I C = X509_V_OK) /\
    (self_signed C = true ->
     CheckIssued C [VObject (X509Object C)] = Returned (VBoolean true)).

End MoreBindings.

Section Predicates.
Context `{lib : Collaborators}.




Definition IsObject (v : Value) : bool :=
  match v with
  | VObject _ | VArrayBufferView _ => true
  | _ => false
  end.

(** X509Certificate::HasInstance on a value that is an object. *)
Definition HasInstance (v : Value) : bool :=
  match v with VObject (X509Object _) => true | _ => false end.

(** The codes of the errors in the queue, oldest first. *)
Definition codes (q : list (Z * bool)) : list Z := map fst q.

(** Every ManagedX509 held through a shared_ptr has an owner and holds a
    live certificate, and no two of them hold the same certificate. *)
Definition well_owned (w : World) : Prop :=
  (forall (p : addr) (m : ManagedX509) (k : nat),
     managed w !! p = Some (m, k) ->
     (1 <= k)%nat /\
     forall a : addr, cert_ m = Some a ->
       exists (c : X509) (n : nat), x509s w !! a = Some (c, S n)) /\
  (forall (p1 p2 a : addr) (m1 m2 : ManagedX509) (k1 k2 : nat),
     managed w !! p1 = Some (m1, k1) ->
     managed w !! p2 = Some (m2, k2) ->
     cert_ m1 = Some a -> cert_ m2 = Some a -> p1 = p2).

(** Two states with the same certificates and the same ManagedX509s. *)
Definition same_heaps (w1 w2 : World) : Prop :=
  x509s w1 = x509s w2 /\ managed w1 = managed w2.

(** What wrapping a freshly decoded certificate does to the two heaps when
    it started from those of [w0]: one new X509 with one reference held by
    one new ManagedX509 with one owner, for the object [r] returns; or
    nothing at all, when [r] is no object. *)
Definition decode_outcome (e : Environment) (w0 : World)
    (r : Result X509Certificate) (w' : World) : Prop :=
  (exists c : X509,
     r = Returned {| env := e; shared_cert_ := fresh (dom (managed w0)) |} /\
     x509s w' = <[fresh (dom (x509s w0)) := (c, 1%nat)]> (x509s w0) /\
     managed w' =
       <[fresh (dom (managed w0)) :=
           ({| cert_ := Some (fresh (dom (x509s w0))) |}, 1%nat)]>
         (managed w0)) \/
  ((forall h, r <> Returned h) /\
   x509s w' = x509s w0 /\ managed w' = managed w0).

Definition decodes (e : Environment) (m : M (Result X509Certificate))
  : Prop :=
  forall w0 w : World,
    x509s w = x509s w0 -> managed w = managed w0 ->
    decode_outcome e w0 (fst (m w)) (snd (m w)).

End Predicates.

(** The accessors of the test double: certificate [n] is a CA (code 1) when
    [n] is 1, a self-signed version 1 root (code 3) when [n] is 3 and no CA
    otherwise; its key is [n / 2]; key objects cannot be created for key 7;
    the session presents certificate 2. *)
Definition toy_accessors : @Accessors toy := {|
  X509_check_ca := fun cert : @X509 toy =>
    if Nat.eqb (cert : nat) 1 then 1
    else if Nat.eqb (cert : nat) 3 then 3 else 0;
  X509_get_pubkey := fun cert : @X509 toy =>
    (Nat.div (cert : nat) 2 : @EVP_PKEY toy);
  KeyObjectHandle_Create := fun key : @KeyObjectData toy =>
    negb (Nat.eqb (@GetAsymmetricKey toy key : nat) 7);
  SSL_get_certificate := fun _ => Some 2%positive;
|}.

(** [toy_world] with an error left in the queue by an earlier call. *)
Definition toy_stale_world : @World toy := {|
  x509s := x509s toy_world;
  managed := managed toy_world;
  error_queue := [(67108983, false)];
  isolate := isolate toy_world;
|}.

(** [toy_world] with v8 about to fail in NewInstance. *)
Definition toy_failing_world : @World toy := {|
  x509s := x509s toy_world;
  managed := managed toy_world;
  error_queue := error_queue toy_world;
  isolate := ([false] : list bool) : @Isolate toy;
|}.

(** A library of self-signed certificates: certificate [n] names itself as
    issuer and is signed with its own key [n]; the odd ones have a key
    usage that does not allow signing certificates, and for these the
    pairwise issuer check gives X509_V_ERR_KEYUSAGE_NO_CERTSIGN (32), as
    that of OpenSSL does; two different certificates never match
    (X509_V_ERR_SUBJECT_ISSUER_MISMATCH, 29).  The rest is as in [toy]. *)
Definition selfsigned_toy : Collaborators := {|
  X509 := nat;
  EVP_PKEY := nat;
  Isolate := list bool;
  X509_check_host := @X509_check_host toy;
  X509_check_email := @X509_check_email toy;
  X509_check_ip_asc := @X509_check_ip_asc toy;
  X509_check_issued := fun issuer subject =>
    if Nat.eqb issuer subject
    then (if Nat.even issuer then 0 else 32)
    else 29;
  X509_check_private_key := @X509_check_private_key toy;
  X509_verify := fun cert key => if Nat.eqb key cert then 1 else 0;
  PEM_read_bio_X509_AUX := @PEM_read_bio_X509_AUX toy;
  d2i_X509 := @d2i_X509 toy;
  X509_dup := @X509_dup toy;
  LoadBIO := @LoadBIO toy;
  GetFunction := @GetFunction toy;
  NewInstance := @NewInstance toy;
  SERVER := 1;
  ABBREVIATED := 2;
|}.

Definition selfsigned_accessors : @Accessors selfsigned_toy := {|
  X509_check_ca := fun cert : @X509 selfsigned_toy =>
    if Nat.even (cert : nat) then 1 else 0;
  X509_get_pubkey := fun cert : @X509 selfsigned_toy =>
    (cert : @EVP_PKEY selfsigned_toy);
  KeyObjectHandle_Create := fun _ => true;
  SSL_get_certificate := fun _ => None;
|}.
(** * Identity verifier *)


Section VerifierFacts.
Context `{lib : Collaborators}.




Lemma CheckIP_rc (cert : X509) (name : string) (flags : Z) :
  CheckIP cert [VString name; VUint32 flags] =
  match X509_check_ip_asc cert (c_str name) flags with
  | 1 => Returned (VString name)
  | 0 => Returned VUndefined
  | -2 => Threw (ERR_INVALID_ARG_VALUE "Invalid IP")
  | _ => Threw ERR_CRYPTO_OPERATION_FAILED
  end.
Proof. reflexivity. Qed.





Lemma KeyType_eqb_eq (a b : KeyType) : KeyType_eqb a b = true <-> a = b.
Proof. destruct a, b; simpl; split; congruence. Qed.

Lemma KeyType_eqb_neq (a b : KeyType) : KeyType_eqb a b = false <-> a <> b.
Proof. destruct a, b; simpl; split; congruence. Qed.

(** C4.  checkPrivateKey aborts on a failed CHECK whenever the key type
    of the handle is not private, and verify whenever it is not public;
    with the right key type each returns the boolean obtained from the
    return code of the library's check of that key against this
    certificate (X509_check_private_key = 1, X509_verify > 0). *)
Theorem key_type_preconditions (cert : X509) (key : KeyObjectData) :
  (GetKeyType key <> kKeyTypePrivate ->
   CheckPrivateKey cert [VObject (KeyObject key)] = Aborted) /\
  (GetKeyType key = kKeyTypePrivate ->
   CheckPrivateKey cert [VObject (KeyObject key)] =
     Returned (VBoolean
       (X509_check_private_key cert (GetAsymmetricKey key) =? 1))) /\
  (GetKeyType key <> kKeyTypePublic ->
   Verify cert [VObject (KeyObject key)] = Aborted) /\
  (GetKeyType key = kKeyTypePublic ->
   Verify cert [VObject (KeyObject key)] =
     Returned (VBoolean (0 <? X509_verify cert (GetAsymmetricKey key)))).
Proof.
  unfold CheckPrivateKey, Verify; simpl. repeat split; intros H.
  - apply KeyType_eqb_neq in H. rewrite H. reflexivity.
  - rewrite H. reflexivity.
  - apply KeyType_eqb_neq in H. rewrite H. reflexivity.
  - rewrite H. reflexivity.
Qed.

(** C8.  C.checkIssued(I) returns the boolean of the one test
    X509_check_issued(I, C) = X509_V_OK and nothing else: it returns true
    exactly when that pairwise check succeeds and false otherwise.  For
    C.checkIssued(C) that is the pairwise check of C against itself:
    true exactly when the library accepts C as its own issuer. *)
Theorem CheckIssued_pairwise (cert issuer : X509) :
  CheckIssued cert [VObject (X509Object issuer)] =
    Returned (VBoolean (X509_check_issued issuer cert =? X509_V_OK)) /\
  (CheckIssued cert [VObject (X509Object issuer)] = Returned (VBoolean true)
   <-> X509_check_issued issuer cert = X509_V_OK) /\
  (CheckIssued cert [VObject (X509Object issuer)] = Returned (VBoolean false)
   <-> X509_check_issued issuer cert <> X509_V_OK) /\
  (CheckIssued cert [VObject (X509Object cert)] = Returned (VBoolean true)
   <-> X509_check_issued cert cert = X509_V_OK).
Proof.
  unfold CheckIssued; simpl. repeat split.
  - intros [= H]. apply Z.eqb_eq in H. exact H.
  - intros H. rewrite H. reflexivity.
  - intros [= H]. apply Z.eqb_neq in H. exact H.
  - intros H. apply Z.eqb_neq in H. rewrite H. reflexivity.
  - intros [= H]. apply Z.eqb_eq in H. exact H.
  - intros H. rewrite H. reflexivity.
Qed.

(** C9.  verify never throws, whatever its arguments: with a public key,
    a negative return of X509_verify (an internal failure) and a zero
    return (a signature that does not verify) both come back as the
    boolean false. *)
Theorem Verify_never_throws (cert : X509) :
  (forall args e, Verify cert args <> Threw e) /\
  (forall key, GetKeyType key = kKeyTypePublic ->
     X509_verify cert (GetAsymmetricKey key) <= 0 ->
     Verify cert [VObject (KeyObject key)] = Returned (VBoolean false)).
Proof.
  split.
  - intros args e. unfold Verify.
    destruct (arg 0 args) as [| | | | |o]; try discriminate.
    destruct o; try discriminate.
    destruct (KeyType_eqb _ _); discriminate.
  - intros key Hk Hrc. unfold Verify; simpl. rewrite Hk; simpl.
    apply Z.ltb_ge in Hrc. rewrite Hrc. reflexivity.
Qed.

End VerifierFacts.

(** The verifier on the test double. *)


Lemma key_type_preconditions_witness :
  CheckPrivateKey (lib := toy) 5%nat
    [VObject (KeyObject (toy_key kKeyTypePublic 5))] = Aborted /\
  CheckPrivateKey (lib := toy) 5%nat
    [VObject (KeyObject (toy_key kKeyTypePrivate 5))]
    = Returned (VBoolean true) /\
  Verify (lib := toy) 5%nat
    [VObject (KeyObject (toy_key kKeyTypePrivate 2))] = Aborted /\
  Verify (lib := toy) 5%nat
    [VObject (KeyObject (toy_key kKeyTypePublic 2))]
    = Returned (VBoolean true).
Proof.
  split; [| split; [| split]].
  - apply (proj1 (key_type_preconditions (lib := toy) 5%nat
             (toy_key kKeyTypePublic 5))).
    discriminate.
  - apply (proj1 (proj2 (key_type_preconditions (lib := toy) 5%nat
             (toy_key kKeyTypePrivate 5)))).
    reflexivity.
  - apply (proj1 (proj2 (proj2 (key_type_preconditions (lib := toy) 5%nat
             (toy_key kKeyTypePrivate 2))))).
    discriminate.
  - apply (proj2 (proj2 (proj2 (key_type_preconditions (lib := toy) 5%nat
             (toy_key kKeyTypePublic 2))))).
    reflexivity.
Defined.

Lemma CheckIssued_pairwise_witness :
  X509_check_issued (Collaborators := toy) 0%nat 0%nat = X509_V_OK /\
  CheckIssued (lib := toy) 0%nat [VObject (X509Object (lib := toy) 0%nat)]
    = Returned (VBoolean true) /\
  CheckIssued (lib := toy) 5%nat [VObject (X509Object (lib := toy) 3%nat)]
    = Returned (VBoolean false).
Proof.
  split; [reflexivity |]. split.
  - apply (proj2 (proj2 (proj2 (CheckIssued_pairwise (lib := toy)
             0%nat 0%nat)))).
    reflexivity.
  - apply (proj1 (proj2 (proj2 (CheckIssued_pairwise (lib := toy)
             5%nat 3%nat)))).
    discriminate.
Defined.

(** C8 as the specification words it fails on a library that, as OpenSSL
    does, refuses a certificate as an issuer when its key usage does not
    allow signing certificates: certificate 7 of [selfsigned_toy] is
    self-signed, its signature verifying under its own key, and the
    pairwise check of 7 against itself gives
    X509_V_ERR_KEYUSAGE_NO_CERTSIGN, so checkIssued returns false. *)
Lemma CheckIssued_not_as_specified :
  self_signed (acc := selfsigned_accessors) 7%nat = true /\
  X509_check_issued (Collaborators := selfsigned_toy) 7%nat 7%nat = 32 /\
  CheckIssued (lib := selfsigned_toy) 7%nat
    [VObject (X509Object (lib := selfsigned_toy) 7%nat)]
    = Returned (VBoolean false) /\
  ~ checkIssued_as_specified (acc := selfsigned_accessors).
Proof.
  split; [reflexivity |]. split; [reflexivity |]. split; [reflexivity |].
  intros H. destruct (H 7%nat 7%nat) as [_ Hself].
  specialize (Hself eq_refl). discriminate Hself.
Qed.

Lemma Verify_never_throws_witness :
  X509_verify (Collaborators := toy) 5%nat 99%nat = -1 /\
  Verify (lib := toy) 5%nat
    [VObject (KeyObject (toy_key kKeyTypePublic 99))]
    = Returned (VBoolean false).
Proof.
  split; [reflexivity |].
  apply (proj2 (Verify_never_throws (lib := toy) 5%nat)
           (toy_key kKeyTypePublic 99)).
  - reflexivity.
  - discriminate.
Defined.


(** * Decoder *)

(** Projections of a world that was just built, and the small matches
    around them. *)
Ltac world_simpl :=
  cbn [negb x509s managed error_queue isolate fst snd
       cert_ shared_cert_ env data_].

Ltac world_simpl_in H :=
  cbn [negb x509s managed error_queue isolate fst snd
       cert_ shared_cert_ env data_] in H.

Section DecoderFacts.
Context `{lib : Collaborators}.

(** Running a bind: the first computation, then the rest on its result. *)
Lemma bind_run {A B} (m : M A) (k : A -> M B) (w w' : World) (a : A) :
  m w = (a, w') -> bind m k w = k a w'.
Proof. intros H. unfold bind. rewrite H. reflexivity. Qed.

Lemma then_ret {A B} (m : M A) (b : B) (w : World) :
  (m ;; ret b) w = (b, snd (m w)).
Proof. unfold bind, ret. destruct (m w). reflexivity. Qed.

(** A scope under ClearErrorOnReturn: its result, and its final state
    with the error queue emptied. *)
Lemma ClearErrorOnReturn_run {A} (scope : M A) (w : World) :
  ClearErrorOnReturn scope w
  = (fst (scope w), snd (ERR_clear_error (snd (scope w)))).
Proof.
  unfold ClearErrorOnReturn, bind, ret.
  destruct (scope w) as [r w1]. reflexivity.
Qed.

(** New on a certificate just allocated, when v8 succeeds: the object
    reaches that certificate. *)
Lemma New_alloc_ok (e : Environment) (c : X509) (w : World) :
  v8_ok w ->
  exists h w',
    (a <- X509_alloc c ;; New e (Some a)) w = (Returned h, w') /\
    decoded h w' = Some c /\
    env h = e /\
    error_queue w' = error_queue w.
Proof.
  intros [Hf Hn].
  destruct (GetFunction (isolate w)) as [okf i1] eqn:Ef; simpl in *.
  destruct (NewInstance i1) as [okn i2] eqn:En; simpl in *.
  subst okf okn.
  cbv [bind X509_alloc New shared_new New_shared v8_call ret
       set_x509s set_managed].
  world_simpl. rewrite Ef; world_simpl. rewrite En; world_simpl.
  eexists _, _. split; [reflexivity |].
  unfold decoded, get; world_simpl.
  rewrite lookup_insert_eq; world_simpl. rewrite lookup_insert_eq.
  auto.
Qed.

(** The codes of the entries a primitive raised. *)
Lemma codes_raised (es : list Z) :
  map fst (map (fun e : Z => (e, false)) es) = es.
Proof. induction es as [|e es IH]; simpl; [| rewrite IH]; reflexivity. Qed.

(** Marking an entry changes no error code. *)
Lemma set_mark_codes (q : list (Z * bool)) :
  map fst (set_mark q) = map fst q.
Proof.
  unfold set_mark. rewrite <- (rev_involutive q) at 2.
  destruct (rev q) as [|[e b] r]; [reflexivity |].
  simpl. rewrite !map_app. reflexivity.
Qed.

(** ERR_get_error returns the code at the head of the queue. *)
Lemma ERR_get_error_head (w : World) (e : Z) (es : list Z) :
  map fst (error_queue w) = e :: es ->
  fst (ERR_get_error w) = e.
Proof.
  unfold ERR_get_error. destruct (error_queue w) as [|[e' b] q]; simpl.
  - discriminate.
  - intros [= -> _]. reflexivity.
Qed.

(** Parse leaves the error queue empty, whatever it was given: the state
    in which the next call finds it. *)
Lemma Parse_clears_error_queue (e : Environment) (data : bytes) (w : World) :
  error_queue (snd (Parse e [VArrayBufferView data] w)) = [].
Proof.
  unfold Parse; cbn [arg nth]. cbv zeta.
  rewrite ClearErrorOnReturn_run. reflexivity.
Qed.

(** The order of the two attempts, from a clean error queue and on a
    buffer the BIO could be loaded from: a certificate read in the PEM
    encoding is the one decoded,
    whatever the DER decoder would say; when the PEM attempt fails, the DER
    decoder runs on the bytes of the buffer itself, not on what the PEM
    reader left in the BIO, and a certificate it reads is the one decoded;
    when both fail, the error thrown is built from the first error the PEM
    attempt raised, never from an error of the DER attempt. *)
Theorem Parse_pem_then_der (e : Environment) (data bio : bytes) (w : World) :
  error_queue w = [] ->
  Z.of_nat (length data) < 2 ^ 32 ->
  LoadBIO data = (Some bio, []) ->
  (forall c es rest,
     PEM_read_bio_X509_AUX bio = (Some c, es, rest) -> v8_ok w ->
     exists h, fst (Parse e [VArrayBufferView data] w) = Returned h /\
               decoded h (snd (Parse e [VArrayBufferView data] w)) = Some c) /\
  (forall c pes rest des,
     PEM_read_bio_X509_AUX bio = (None, pes, rest) ->
     d2i_X509 data = (Some c, des) -> v8_ok w ->
     exists h, fst (Parse e [VArrayBufferView data] w) = Returned h /\
               decoded h (snd (Parse e [VArrayBufferView data] w)) = Some c) /\
  (forall err pes rest des,
     PEM_read_bio_X509_AUX bio = (None, err :: pes, rest) ->
     d2i_X509 data = (None, des) ->
     fst (Parse e [VArrayBufferView data] w) = Threw (CryptoError err)).
Proof.
  intros Hq Hlen Hbio.
  assert (Hdata : firstn (Z.to_nat (Z.of_nat (length data) mod 2 ^ 32)) data
                  = data).
  { rewrite Z.mod_small by lia. rewrite Nat2Z.id. apply firstn_all. }
  repeat split.
  - intros c es rest Hpem Hv8.
    unfold Parse, ClearErrorOnReturn; cbn [arg nth]. rewrite Hbio, Hpem.
    destruct (New_alloc_ok e c (snd (raise es (snd (raise [] w)))) Hv8)
      as (h & w3 & Hnew & Hdec & _ & _).
    exists h.
    erewrite bind_run;
      [| erewrite bind_run; [| reflexivity];
         erewrite bind_run; [| reflexivity]; exact Hnew].
    split; [reflexivity | exact Hdec].
  - intros c pes rest des Hpem Hder Hv8.
    unfold Parse, ClearErrorOnReturn, MarkPopErrorOnReturn; cbn [arg nth].
    rewrite Hbio, Hpem, Hdata, Hder.
    destruct (New_alloc_ok e c
                (snd (raise des (snd (ERR_set_mark
                   (snd (raise pes (snd (raise [] w)))))))) Hv8)
      as (h & w3 & Hnew & Hdec & _ & _).
    exists h.
    erewrite bind_run;
      [| erewrite bind_run; [| reflexivity];
         erewrite bind_run; [| reflexivity];
         erewrite bind_run; [| reflexivity];
         erewrite bind_run;
           [| erewrite bind_run; [| reflexivity]; exact Hnew];
         reflexivity].
    split; [reflexivity | exact Hdec].
  - intros err pes rest des Hpem Hder.
    unfold Parse, ClearErrorOnReturn, MarkPopErrorOnReturn; cbn [arg nth].
    rewrite Hbio, Hpem, Hdata, Hder.
    set (w3 := snd (raise des (snd (ERR_set_mark
                 (snd (raise (err :: pes) (snd (raise [] w)))))))).
    assert (Hhead : fst (ERR_get_error w3) = err).
    { apply ERR_get_error_head with
        (es := pes ++ des).
      subst w3. unfold raise, ERR_set_mark, set_error_queue; world_simpl.
      rewrite Hq. rewrite map_app, set_mark_codes. simpl.
      rewrite !codes_raised. reflexivity. }
    destruct (ERR_get_error w3) as [err' w4] eqn:Hget. simpl in Hhead.
    subst err'.
    erewrite bind_run;
      [| erewrite bind_run; [| reflexivity];
         erewrite bind_run; [| reflexivity];
         erewrite bind_run; [| reflexivity];
         erewrite bind_run;
           [| erewrite bind_run; [| reflexivity];
              erewrite bind_run; [| exact Hget]; reflexivity];
         reflexivity].
    reflexivity.
Qed.

End DecoderFacts.

(** * Ownership of the decoded certificate *)

Section OwnershipFacts.
Context `{lib : Collaborators}.

Lemma survives_refl (h : gmap addr (X509 * nat)) : survives h h.
Proof. intros a c n H. rewrite H. reflexivity. Qed.

Lemma lookup_add_ref (a b : addr) (h : gmap addr (X509 * nat)) :
  add_ref a h !! b =
  if decide (a = b) then (fun o => (fst o, S (snd o))) <$> h !! b
  else h !! b.
Proof.
  unfold add_ref. rewrite lookup_alter.
  destruct (decide (a = b)) as [->|]; reflexivity.
Qed.

Lemma lookup_drop_ref (a b : addr) (h : gmap addr (X509 * nat)) :
  drop_ref a h !! b =
  if decide (a = b)
  then match h !! b with
       | Some (c, S (S n)) => Some (c, S n)
       | _ => None
       end
  else h !! b.
Proof.
  unfold drop_ref.
  destruct (decide (a = b)) as [->|Hne].
  - destruct (h !! b) as [[c [|[|n]]]|] eqn:E;
      rewrite ?lookup_delete_eq, ?lookup_insert_eq; auto.
  - destruct (h !! a) as [[c [|[|n]]]|];
      rewrite ?lookup_delete_ne, ?lookup_insert_ne by assumption; auto.
Qed.

Lemma survives_add_ref (a : addr) (h : gmap addr (X509 * nat)) :
  survives h (add_ref a h).
Proof.
  intros b c n H. rewrite lookup_add_ref, H.
  destruct (decide (a = b)); reflexivity.
Qed.

Lemma survives_drop_ref (a : addr) (h : gmap addr (X509 * nat)) :
  survives h (drop_ref a h).
Proof.
  intros b c n H. rewrite lookup_drop_ref, H.
  destruct (decide (a = b)); [| reflexivity].
  destruct n as [|[|n]]; auto.
Qed.

Lemma survives_drop_add (o p : addr) (h : gmap addr (X509 * nat)) :
  survives h (add_ref p (drop_ref o h)).
Proof.
  intros b c n H. rewrite lookup_add_ref, lookup_drop_ref, H.
  destruct (decide (p = b)), (decide (o = b)); simpl;
    try reflexivity; destruct n as [|[|n]]; simpl; auto.
Qed.

(** What the destruction of one owner does to the two heaps. *)
Lemma shared_release_x509s (p : addr) (w : World) :
  x509s (snd (shared_release p w)) =
  match managed w !! p with
  | Some (m, S (S _)) => x509s w
  | Some (m, _) =>
      match cert_ m with
      | Some a => drop_ref a (x509s w)
      | None => x509s w
      end
  | None => x509s w
  end.
Proof.
  unfold shared_release.
  destruct (managed w !! p) as [[m [|[|n]]]|]; try reflexivity;
    destruct m as [[a|]]; reflexivity.
Qed.

Lemma shared_release_managed (p : addr) (w : World) :
  managed (snd (shared_release p w)) =
  match managed w !! p with
  | Some (m, S (S n)) => <[p := (m, S n)]> (managed w)
  | Some _ => delete p (managed w)
  | None => managed w
  end.
Proof.
  unfold shared_release.
  destruct (managed w !! p) as [[m [|[|n]]]|]; try reflexivity;
    destruct m as [[a|]]; reflexivity.
Qed.

Lemma shared_release_isolate (p : addr) (w : World) :
  isolate (snd (shared_release p w)) = isolate w.
Proof.
  unfold shared_release.
  destruct (managed w !! p) as [[m [|[|n]]]|]; try reflexivity;
    destruct m as [[a|]]; reflexivity.
Qed.

(** New on a shared_ptr: the object, or the release of the reference it
    was given. *)
Lemma New_shared_cases (e : Environment) (p : addr) (w : World) :
  (fst (New_shared e p w) = Returned {| env := e; shared_cert_ := p |} /\
   x509s (snd (New_shared e p w)) = x509s w /\
   managed (snd (New_shared e p w)) = managed w) \/
  (fst (New_shared e p w) = Threw PendingException /\
   exists w1, x509s w1 = x509s w /\ managed w1 = managed w /\
              snd (New_shared e p w) = snd (shared_release p w1)).
Proof.
  destruct (New_shared e p w) as [r w'] eqn:E; simpl.
  unfold New_shared, v8_call in E. unfold bind at 1 in E.
  destruct (GetFunction (isolate w)) as [[] i1]; world_simpl_in E.
  - unfold bind at 1 in E; world_simpl_in E.
    destruct (NewInstance i1) as [[] i2]; world_simpl_in E.
    + injection E as <- <-. left. auto.
    + rewrite then_ret in E. injection E as <- <-. right.
      split; [reflexivity |].
      eexists. split; [| split]; [| | reflexivity]; reflexivity.
  - rewrite then_ret in E. injection E as <- <-. right.
    split; [reflexivity |].
    eexists. split; [| split]; [| | reflexivity]; reflexivity.
Qed.

Lemma New_shared_ok (e : Environment) (p : addr) (w : World) :
  v8_ok w ->
  fst (New_shared e p w) = Returned {| env := e; shared_cert_ := p |}.
Proof.
  intros [Hf Hn].
  unfold New_shared, v8_call. unfold bind at 1.
  destruct (GetFunction (isolate w)) as [okf i1]; simpl in Hf, Hn.
  subst okf. world_simpl. unfold bind at 1. world_simpl.
  destruct (NewInstance i1) as [okn i2]; simpl in Hn. subst okn.
  reflexivity.
Qed.

(** Deserialize is its guarded body followed by the release of data_. *)
Lemma Deserialize_run (this : X509CertificateTransferData) (e : Environment)
    (ctx : nat) (w : World) :
  Deserialize this e ctx w =
  let body := if negb (Nat.eqb ctx (context e))
              then ret (Threw ERR_MESSAGE_TARGET_CONTEXT_UNAVAILABLE)
              else shared_copy (data_ this) ;; New_shared e (data_ this) in
  (fst (body w), snd (shared_release (data_ this) (snd (body w)))).
Proof.
  unfold Deserialize. cbv zeta. unfold bind at 1.
  match goal with |- context [let '(a, w') := ?m w in _] =>
    destruct (m w) as [r w1] end.
  rewrite then_ret. reflexivity.
Qed.

(** Unpacking drops at most one reference of at most one certificate. *)
Lemma Deserialize_x509s (this : X509CertificateTransferData) (e : Environment)
    (ctx : nat) (w : World) :
  x509s (snd (Deserialize this e ctx w)) = x509s w \/
  exists a, x509s (snd (Deserialize this e ctx w)) = drop_ref a (x509s w).
Proof.
  remember (x509s (snd (Deserialize this e ctx w))) as X eqn:HX.
  rewrite Deserialize_run in HX. cbv zeta in HX. cbn [snd] in HX.
  set (p := data_ this) in *.
  destruct (negb (Nat.eqb ctx (context e))).
  - unfold ret in HX; cbn [snd] in HX. rewrite shared_release_x509s in HX.
    destruct (managed w !! p) as [[m [|[|n]]]|]; auto;
      destruct (cert_ m); eauto.
  - unfold bind at 1 in HX.
    unfold shared_copy at 1, set_managed at 1 in HX.
    set (w1 := {| x509s := x509s w;
                  managed := alter (fun o => (fst o, S (snd o))) p (managed w);
                  error_queue := error_queue w; isolate := isolate w |}) in *.
    destruct (New_shared_cases e p w1)
      as [(_ & Hx & Hm) | (_ & w2 & Hx & Hm & Hs)].
    + rewrite shared_release_x509s, Hx, Hm in HX. subst w1; world_simpl_in HX.
      rewrite lookup_alter_eq in HX.
      destruct (managed w !! p) as [[m [|n]]|]; simpl in HX; auto;
        destruct (cert_ m); eauto.
    + rewrite Hs in HX.
      rewrite shared_release_x509s, shared_release_managed in HX.
      rewrite (shared_release_x509s p w2), Hx, Hm in HX.
      subst w1; world_simpl_in HX.
      rewrite lookup_alter_eq in HX.
      destruct (managed w !! p) as [[m [|[|n]]]|] eqn:E; simpl in HX;
        rewrite ?lookup_delete_eq, ?lookup_insert_eq, ?lookup_alter_eq, ?E
          in HX; simpl in HX; auto;
        try destruct (cert_ m); eauto.
Qed.

(** Adding a reference to a live entry, as an update of that entry. *)
Lemma alter_count {V} (p : addr) (v : V) (n : nat) (h : gmap addr (V * nat)) :
  h !! p = Some (v, n) ->
  alter (fun o => (fst o, S (snd o))) p h = <[p := (v, S n)]> h.
Proof.
  intros H. apply map_eq. intros i.
  destruct (decide (p = i)) as [<-|Hne].
  - rewrite lookup_alter_eq, lookup_insert_eq, H. reflexivity.
  - rewrite lookup_alter_ne, lookup_insert_ne by assumption. reflexivity.
Qed.

(** Every operation on the owners either leaves the decoded certificates
    alone, adds a reference, drops one, or drops one and adds one. *)
Lemma run_x509s (op : Op) (w : World) :
  x509s (run op w) = x509s w \/
  (exists a, x509s (run op w) = add_ref a (x509s w)) \/
  (exists a, x509s (run op w) = drop_ref a (x509s w)) \/
  (exists o p, x509s (run op w) = add_ref p (drop_ref o (x509s w))).
Proof.
  destruct op as [that | this that | this | this | this e ctx | owner];
    cbn [run].
  - destruct that as [[p|]]; cbn; eauto.
  - destruct this as [[o|]], that as [[p|]]; cbn; eauto 6.
  - destruct this as [[o|]]; cbn; eauto.
  - left. reflexivity.
  - destruct (Deserialize_x509s this e ctx w) as [H | [a H]];
      rewrite H; eauto.
  - rewrite shared_release_x509s.
    destruct (managed w !! owner) as [[m [|[|n]]]|]; auto;
      destruct (cert_ m); eauto.
Qed.

(** C6.  Unpacking throws ERR_MESSAGE_TARGET_CONTEXT_UNAVAILABLE exactly
    when the context it is given is not the context of the environment;
    with the right context and v8 able to build the object it returns an
    X509Certificate bound to that environment; and whenever it returns an
    object for a package that owns its ManagedX509, the object holds the
    very ManagedX509 the package captured and reaches the same X509 through
    it, while no decoded certificate is created, changed or destroyed and
    the ManagedX509 has as many owners as before (the object in place of
    the package). *)
Theorem Deserialize_context_guard (this : X509CertificateTransferData)
    (e : Environment) (ctx : nat) (w : World) :
  (ctx <> context e <->
   fst (Deserialize this e ctx w)
     = Threw ERR_MESSAGE_TARGET_CONTEXT_UNAVAILABLE) /\
  (ctx = context e -> v8_ok w ->
   fst (Deserialize this e ctx w)
     = Returned {| env := e; shared_cert_ := data_ this |}) /\
  (forall (h : X509Certificate) (m : ManagedX509) (n : nat),
     fst (Deserialize this e ctx w) = Returned h ->
     managed w !! data_ this = Some (m, S n) ->
     env h = e /\ context (env h) = ctx /\
     shared_cert_ h = data_ this /\
     get h (snd (Deserialize this e ctx w)) = cert_ m /\
     x509s (snd (Deserialize this e ctx w)) = x509s w /\
     managed (snd (Deserialize this e ctx w)) = managed w).
Proof.
  rewrite Deserialize_run. cbv zeta. cbn [fst snd].
  set (p := data_ this).
  destruct (Nat.eqb ctx (context e)) eqn:Ectx; cbn [negb].
  - apply Nat.eqb_eq in Ectx.
    set (w1 := {| x509s := x509s w;
                  managed := alter (fun o => (fst o, S (snd o))) p (managed w);
                  error_queue := error_queue w; isolate := isolate w |}).
    change ((shared_copy p ;; New_shared e p) w) with (New_shared e p w1).
    destruct (New_shared_cases e p w1)
      as [(Hr & Hx & Hm) | (Hr & _)]; rewrite Hr.
    + split; [split; [contradiction | discriminate] |].
      split; [reflexivity |].
      intros h m n [= <-] Hp. cbn [env shared_cert_].
      assert (Hfinal : managed (snd (shared_release p
                                       (snd (New_shared e p w1))))
                       = managed w).
      { rewrite shared_release_managed, Hm. subst w1; world_simpl.
        rewrite lookup_alter_eq, Hp. simpl.
        apply map_eq. intros i. destruct (decide (p = i)) as [<-|Hne].
        - rewrite lookup_insert_eq, Hp. reflexivity.
        - rewrite lookup_insert_ne, lookup_alter_ne by assumption.
          reflexivity. }
      repeat split; auto.
      * unfold get. cbn [shared_cert_]. rewrite Hfinal, Hp. reflexivity.
      * rewrite shared_release_x509s, Hm, Hx. subst w1; world_simpl.
        rewrite lookup_alter_eq, Hp. reflexivity.
    + split; [split; [contradiction | discriminate] |].
      split; [| discriminate].
      intros _ Hv8. rewrite <- Hr. apply New_shared_ok. exact Hv8.
  - apply Nat.eqb_neq in Ectx. unfold ret; cbn [fst snd].
    split; [split; auto |].
    split; [contradiction | discriminate].
Qed.

End OwnershipFacts.

(** * Session extractor *)

Section SessionFacts.
Context `{lib : Collaborators}.

(** One turn of the loop that succeeds: the duplicate is a new X509 object
    with one reference, wrapped by a new ManagedX509, and nothing else
    changes. *)
Lemma dup_New_ok (e : Environment) (a : addr) (c c' : X509) (n : nat)
    (w : World) :
  x509s w !! a = Some (c, n) ->
  X509_dup c = Some c' ->
  v8_ok w ->
  exists (a' : addr) (h : X509Certificate) (w1 w' : World),
    X509_dup_ptr (Some a) w = (Some a', w1) /\
    New e (Some a') w1 = (Returned h, w') /\
    x509s w ⊆ x509s w' /\
    managed w ⊆ managed w' /\
    error_queue w' = error_queue w /\
    isolate w' = snd (NewInstance (snd (GetFunction (isolate w)))) /\
    get h w' = Some a' /\
    x509s w !! a' = None /\
    x509s w' !! a' = Some (c', 1%nat).
Proof.
  intros Ha Hdup [Hf Hn].
  destruct (GetFunction (isolate w)) as [okf i1] eqn:Ef; simpl in Hf, Hn.
  destruct (NewInstance i1) as [okn i2] eqn:En; simpl in Hn.
  subst okf okn.
  assert (Hfresh : x509s w !! fresh (dom (x509s w)) = None).
  { apply not_elem_of_dom. apply is_fresh. }
  assert (Hfreshm : managed w !! fresh (dom (managed w)) = None).
  { apply not_elem_of_dom. apply is_fresh. }
  eexists _, _, _, _.
  split.
  { unfold X509_dup_ptr. cbn [mbind option_bind]. rewrite Ha, Hdup.
    unfold bind, X509_alloc, ret. reflexivity. }
  split.
  { cbv [New bind shared_new New_shared v8_call ret set_managed set_x509s].
    world_simpl. rewrite Ef; world_simpl. rewrite En; world_simpl.
    reflexivity. }
  world_simpl. unfold get; world_simpl.
  rewrite !lookup_insert_eq.
  repeat split; auto.
  - apply insert_subseteq. exact Hfresh.
  - apply insert_subseteq. exact Hfreshm.
  - rewrite En. reflexivity.
Qed.

(** The entry the loop reads at index [length l1]. *)
Lemma sk_X509_value_middle (l1 l2 : list addr) (a : addr) :
  sk_X509_value (Some (l1 ++ a :: l2)) (length l1) = Some a.
Proof.
  unfold sk_X509_value. rewrite nth_error_app2 by lia.
  rewrite Nat.sub_diag. reflexivity.
Qed.

Lemma Forall2_impl_Forall {A B} (P : A -> Prop) (R R' : A -> B -> Prop)
    (l : list A) (k : list B) :
  Forall P l -> Forall2 R l k ->
  (forall x y, P x -> R x y -> R' x y) ->
  Forall2 R' l k.
Proof.
  intros HP HR Himpl. induction HR as [|x y l k Hxy HR IH].
  - constructor.
  - inversion HP; subst. constructor; auto.
Qed.

Lemma Forall2_in_r {A B} (R : A -> B -> Prop) (l : list A) (k : list B)
    (y : B) :
  Forall2 R l k -> In y k -> exists x, In x l /\ R x y.
Proof.
  intros HR. induction HR as [|x y' l k Hxy HR IH]; intros Hin.
  - destruct Hin.
  - destruct Hin as [<- | Hin].
    + exists x. split; [left; reflexivity | assumption].
    + destruct (IH Hin) as (x' & Hx' & HR'). exists x'.
      split; [right; assumption | assumption].
Qed.

(** A duplicate stays one while the heaps only grow. *)
Lemma duplicate_of_weaken (w w1 w' : World) (a : addr) (h : X509Certificate) :
  x509s w ⊆ x509s w1 ->
  is_Some (x509s w !! a) ->
  duplicate_of w1 w' a h -> duplicate_of w w' a h.
Proof.
  intros Hsub [[c0 n0] Ha0] (a' & c & c' & n & Ha & Hdup & Hget & Hnew & Hc').
  pose proof (lookup_weaken _ _ _ _ Ha0 Hsub) as Ha1.
  rewrite Ha1 in Ha. injection Ha as <- <-.
  exists a', c0, c', n0. repeat split; auto.
  eapply lookup_weaken_None; eassumption.
Qed.

Lemma get_weaken (w w' : World) (h : X509Certificate) (a : addr) :
  managed w ⊆ managed w' -> get h w = Some a -> get h w' = Some a.
Proof.
  unfold get. intros Hsub H.
  destruct (managed w !! shared_cert_ h) as [[m k]|] eqn:E; [| discriminate].
  rewrite (lookup_weaken _ _ _ _ E Hsub). exact H.
Qed.

(** The loop, when every entry can be duplicated and v8 succeeds: one new
    object per entry, in the order of the chain. *)
Lemma GetPeerCert_loop_ok (e : Environment) (l2 : list addr) :
  forall (l1 : list addr) (certs : list X509Certificate) (w : World),
    Forall (fun a => exists c n c',
              x509s w !! a = Some (c, n) /\ X509_dup c = Some c') l2 ->
    v8_ok_n (length l2) (isolate w) ->
    exists (hs : list X509Certificate) (w' : World),
      GetPeerCert_loop e (Some (l1 ++ l2)) (length l2) (length l1) certs w
        = (Returned (Some (certs ++ hs)), w') /\
      x509s w ⊆ x509s w' /\
      managed w ⊆ managed w' /\
      error_queue w' = error_queue w /\
      Forall2 (duplicate_of w w') l2 hs /\
      NoDup (map (fun h => get h w') hs).
Proof.
  induction l2 as [|a l2 IH]; intros l1 certs w Hall Hv8.
  - exists [], w. cbn [GetPeerCert_loop length]. unfold ret.
    rewrite app_nil_r. repeat split; auto; constructor.
  - inversion Hall as [|a0 l0 (c & n & c' & Ha & Hdup) Hall']; subst.
    destruct Hv8 as (Hf & Hn & Hv8').
    destruct (dup_New_ok e a c c' n w Ha Hdup (conj Hf Hn))
      as (a' & h & w1 & w2 & Hd & HN & Hx & Hm & Hq & Hi & Hg & Hnew & Hc').
    destruct (IH (l1 ++ [a]) (certs ++ [h]) w2) as
      (hs & w' & Hloop & Hx' & Hm' & Hq' & Hdups & Hnd).
    { eapply Forall_impl; [exact Hall' |].
      intros b (cb & nb & cb' & Hb & Hdb). exists cb, nb, cb'.
      split; [eapply lookup_weaken; eassumption | assumption]. }
    { rewrite Hi. exact Hv8'. }
    exists (h :: hs), w'.
    split.
    { cbn [GetPeerCert_loop length].
      rewrite sk_X509_value_middle.
      rewrite (bind_run _ _ w w1 (Some a') Hd).
      rewrite (bind_run _ _ w1 w2 (Returned h) HN).
      rewrite <- app_assoc, length_app, Nat.add_1_r in Hloop.
      cbn [app] in Hloop. rewrite Hloop. rewrite <- app_assoc. reflexivity. }
    split; [etransitivity; eassumption |].
    split; [etransitivity; eassumption |].
    split; [congruence |].
    split.
    { constructor.
      - exists a', c, c', n. repeat split; auto.
        + eapply get_weaken; eassumption.
        + eapply lookup_weaken; eassumption.
      - eapply Forall2_impl_Forall; [exact Hall' | exact Hdups |].
        intros b hb (cb & nb & cb' & Hb & _) Hd'.
        eapply duplicate_of_weaken; eauto. }
    cbn [map]. constructor; [| exact Hnd].
    rewrite (get_weaken w2 w' h a' Hm' Hg).
    intros Hin. apply list_elem_of_In, in_map_iff in Hin.
    destruct Hin as (hb & Hgb & Hin).
    destruct (Forall2_in_r _ _ _ _ Hdups Hin)
      as (b & _ & a'' & cb & cb' & nb & _ & _ & Hgb' & Hnone & _).
    rewrite Hgb in Hgb'. injection Hgb' as <-.
    rewrite Hc' in Hnone. discriminate.
Qed.

(** New wraps the pointer it is given in a new ManagedX509 and touches no
    X509 object, or fails with the exception v8 left pending. *)
Lemma New_cases (e : Environment) (cert : X509Pointer) (w : World) :
  (exists (h : X509Certificate) (w' : World),
     New e cert w = (Returned h, w') /\
     x509s w' = x509s w /\
     managed w ⊆ managed w' /\
     get h w' = cert /\
     isolate w' = snd (NewInstance (snd (GetFunction (isolate w)))) /\
     v8_ok w) \/
  (exists w' : World, New e cert w = (Threw PendingException, w') /\
                      ~ v8_ok w).
Proof.
  assert (Hfreshm : managed w !! fresh (dom (managed w)) = None).
  { apply not_elem_of_dom. apply is_fresh. }
  unfold v8_ok.
  cbv [New bind shared_new New_shared v8_call ret set_managed].
  world_simpl.
  destruct (GetFunction (isolate w)) as [[] i1]; world_simpl.
  - destruct (NewInstance i1) as [[] i2] eqn:En; world_simpl.
    + left. eexists _, _. split; [reflexivity |]. world_simpl.
      unfold get; world_simpl. rewrite lookup_insert_eq.
      repeat split; auto. apply insert_subseteq. exact Hfreshm.
    + right. destruct (shared_release _ _) as [u w'].
      eexists. split; [reflexivity |]. intros [_ H]. discriminate.
  - right. destruct (shared_release _ _) as [u w'].
    eexists. split; [reflexivity |]. intros [H _]. discriminate.
Qed.

(** An entry that cannot be duplicated later could not be before, as long
    as the contents were kept in between. *)
Lemma cannot_duplicate_earlier (w w' : World) (b : addr) :
  (forall c n, x509s w !! b = Some (c, n) ->
               exists n', x509s w' !! b = Some (c, n')) ->
  cannot_duplicate w' b -> cannot_duplicate w b.
Proof.
  unfold cannot_duplicate. intros Hkeep H.
  destruct (x509s w !! b) as [[c n]|]; [| exact I].
  destruct (Hkeep c n eq_refl) as [n' Hb]. rewrite Hb in H. exact H.
Qed.

(** The loop comes back empty-handed, with nothing thrown, only from an
    entry X509_dup failed on. *)
Lemma GetPeerCert_loop_none (e : Environment) (l2 : list addr) :
  forall (l1 : list addr) (certs : list X509Certificate) (w w' : World),
    GetPeerCert_loop e (Some (l1 ++ l2)) (length l2) (length l1) certs w
      = (Returned None, w') ->
    exists b, In b l2 /\ cannot_duplicate w b.
Proof.
  induction l2 as [|a l2 IH]; intros l1 certs w w' Hloop.
  - cbn in Hloop. discriminate.
  - cbn [GetPeerCert_loop length] in Hloop.
    rewrite sk_X509_value_middle in Hloop.
    unfold bind at 1 in Hloop.
    unfold X509_dup_ptr in Hloop. cbn [mbind option_bind] in Hloop.
    destruct (x509s w !! a) as [[c n]|] eqn:Ha.
    2:{ exists a. split; [left; reflexivity |].
        unfold cannot_duplicate. rewrite Ha. exact I. }
    destruct (X509_dup c) as [c'|] eqn:Hdup.
    2:{ exists a. split; [left; reflexivity |].
        unfold cannot_duplicate. rewrite Ha. exact Hdup. }
    unfold bind at 1, X509_alloc, ret in Hloop. world_simpl_in Hloop.
    set (a' := fresh (dom (x509s w))) in *.
    set (w1 := snd (set_x509s (fun h => <[a' := (c', 1%nat)]> h) w)) in *.
    destruct (New_cases e (Some a') w1)
      as [(h & w2 & HN & Hx & _) | (w2 & HN & _)].
    + rewrite (bind_run _ _ w1 w2 (Returned h) HN) in Hloop.
      replace (l1 ++ a :: l2) with ((l1 ++ [a]) ++ l2) in Hloop
        by (rewrite <- app_assoc; reflexivity).
      replace (S (length l1)) with (length (l1 ++ [a])) in Hloop
        by (rewrite length_app; simpl; lia).
      destruct (IH _ _ _ _ Hloop) as (b & Hin & Hb).
      exists b. split; [right; exact Hin |].
      eapply cannot_duplicate_earlier; [| exact Hb].
      intros cb nb Hcb. exists nb. rewrite Hx. subst w1; cbn.
      rewrite lookup_insert_ne; [exact Hcb |].
      intros Heq. rewrite <- Heq in Hcb.
      pose proof (is_fresh (dom (x509s w))) as Hf.
      apply not_elem_of_dom in Hf. fold a' in Hf. congruence.
    + rewrite (bind_run _ _ w1 w2 (Threw PendingException) HN) in Hloop.
      discriminate.
Qed.

(** The number of turns of the loop. *)
Lemma count_entries (ssl : SSL) :
  Z.to_nat (sk_X509_num (peer_cert_chain ssl)) = length (chain_entries ssl).
Proof.
  unfold sk_X509_num, chain_entries.
  destruct (peer_cert_chain ssl) as [l|]; simpl; [apply Nat2Z.id | reflexivity].
Qed.

(** GetPeerCert, by the pointer it wraps first.  [w1] is the state after
    the peer certificate was asked for. *)
Lemma GetPeerCert_unfold (e : Environment) (ssl : SSL) (flag : Z) (w : World) :
  let w1 := snd ((if is_server_flag flag then SSL_get_peer_certificate ssl
                  else ret None) w) in
  GetPeerCert e ssl flag w =
  let r :=
    match leading (is_server_flag flag) ssl with
    | None => (Returned None, w1)
    | Some a =>
        (obj <- New e (Some a) ;;
         match obj with
         | Returned obj =>
             if abbreviated_flag flag then ret (Returned (Some [obj]))
             else GetPeerCert_loop e (peer_cert_chain ssl)
                    (length (chain_entries ssl)) 0 [obj]
         | Threw err => ret (Threw err)
         | Aborted => ret Aborted
         | Unspecified => ret Unspecified
         end) w1
    end in
  (fst r, snd (ERR_clear_error (snd r))).
Proof.
  intros w1. unfold GetPeerCert. rewrite ClearErrorOnReturn_run.
  cbv zeta. rewrite count_entries.
  match goal with
  | |- (fst ?X, snd (ERR_clear_error (snd ?X))) = (fst ?Y, _) =>
      assert (H : X = Y); [| rewrite H; reflexivity]
  end.
  unfold bind at 1. subst w1.
  unfold leading, SSL_get_peer_cert_chain, SSL_get_peer_certificate.
  assert (Hnone : forall w0 : World,
    (if is_null (@None addr) &&
        (is_null (peer_cert_chain ssl) ||
         (sk_X509_num (peer_cert_chain ssl) =? 0))
     then ret (Returned None)
     else
       obj <- New e (sk_X509_value (peer_cert_chain ssl) 0) ;;
       match obj with
       | Returned obj =>
           if abbreviated_flag flag then ret (Returned (Some [obj]))
           else GetPeerCert_loop e (peer_cert_chain ssl)
                  (length (chain_entries ssl)) 0 [obj]
       | Threw err => ret (Threw err)
       | Aborted => ret Aborted
       | Unspecified => ret Unspecified
       end) w0 =
    match sk_X509_value (peer_cert_chain ssl) 0 with
    | Some a =>
        (obj <- New e (Some a) ;;
         match obj with
         | Returned obj =>
             if abbreviated_flag flag then ret (Returned (Some [obj]))
             else GetPeerCert_loop e (peer_cert_chain ssl)
                    (length (chain_entries ssl)) 0 [obj]
         | Threw err => ret (Threw err)
         | Aborted => ret Aborted
         | Unspecified => ret Unspecified
         end) w0
    | None => (Returned None, w0)
    end).
  { intros w0. destruct (peer_cert_chain ssl) as [[|a l]|]; reflexivity. }
  destruct (is_server_flag flag).
  - destruct (peer_certificate ssl) as [a|].
    + rewrite then_ret. reflexivity.
    + unfold ret at 1 3. apply Hnone.
  - unfold ret at 1 3. apply Hnone.
Qed.

(** Asking for the peer certificate changes reference counts only. *)
Lemma peer_certificate_state (ssl : SSL) (b : bool) (w : World) :
  let w1 := snd ((if b then SSL_get_peer_certificate ssl else ret None) w) in
  isolate w1 = isolate w /\
  managed w1 = managed w /\
  (forall a c n, x509s w !! a = Some (c, n) ->
                 exists n', x509s w1 !! a = Some (c, n')) /\
  (forall a, x509s w1 !! a = None -> x509s w !! a = None).
Proof.
  destruct b; [destruct (peer_certificate ssl) as [p|] eqn:E |];
    unfold SSL_get_peer_certificate; rewrite ?E; try rewrite then_ret;
    cbn; repeat split; eauto.
  - intros a c n H. rewrite lookup_add_ref, H.
    destruct (decide (p = a)); simpl; eauto.
  - intros a H. rewrite lookup_add_ref in H.
    destruct (decide (p = a)); [| exact H].
    destruct (x509s w !! a); [discriminate | reflexivity].
Qed.

(** C5, as the code has it.  The pointer wrapped first is the verified
    peer certificate when the role is server-facing and the session has
    one, and the first entry of the raw chain otherwise; with neither, the
    result is absent.  When abbreviated is set and v8 builds the object,
    exactly one certificate is returned, holding that pointer.  When
    abbreviated is not set, the leading certificate is the peer certificate
    of a server-facing call, every entry of the chain can be duplicated and
    v8 builds every object, the result is the leading certificate followed
    by one certificate per entry of the chain, in the order of the session,
    each holding an X509 object of its own that did not exist before, has
    one reference and the content X509_dup gave for the entry; the new
    objects are pairwise distinct.  An absent result with nothing thrown
    comes from a session with no leading certificate, or from an entry of
    the chain that X509_dup failed on. *)
Theorem GetPeerCert_leading_then_chain (e : Environment) (ssl : SSL)
    (flag : Z) (w : World) :
  (leading (is_server_flag flag) ssl = None ->
   fst (GetPeerCert e ssl flag w) = Returned None) /\
  (forall a : addr,
     abbreviated_flag flag = true ->
     leading (is_server_flag flag) ssl = Some a ->
     v8_ok w ->
     exists h : X509Certificate,
       fst (GetPeerCert e ssl flag w) = Returned (Some [h]) /\
       get h (snd (GetPeerCert e ssl flag w)) = Some a) /\
  (forall a : addr,
     abbreviated_flag flag = false ->
     is_server_flag flag = true ->
     peer_certificate ssl = Some a ->
     Forall (fun b => exists c n c',
               x509s w !! b = Some (c, n) /\ X509_dup c = Some c')
            (chain_entries ssl) ->
     v8_ok_n (S (length (chain_entries ssl))) (isolate w) ->
     exists (h : X509Certificate) (hs : list X509Certificate),
       fst (GetPeerCert e ssl flag w) = Returned (Some (h :: hs)) /\
       get h (snd (GetPeerCert e ssl flag w)) = Some a /\
       Forall2 (duplicate_of w (snd (GetPeerCert e ssl flag w)))
               (chain_entries ssl) hs /\
       NoDup (map (fun h => get h (snd (GetPeerCert e ssl flag w))) hs)) /\
  (fst (GetPeerCert e ssl flag w) = Returned None ->
   leading (is_server_flag flag) ssl = None \/
   (abbreviated_flag flag = false /\
    exists b : addr, In b (chain_entries ssl) /\ cannot_duplicate w b)).
Proof.
  rewrite GetPeerCert_unfold. cbv zeta.
  destruct (peer_certificate_state ssl (is_server_flag flag) w)
    as (Hi & Hm & Hkeep & Hnew).
  set (w1 := snd ((if is_server_flag flag then SSL_get_peer_certificate ssl
                   else ret None) w)) in *.
  split; [| split; [| split]].
  - intros ->. reflexivity.
  - intros a Habbr -> Hv8.
    destruct (New_cases e (Some a) w1)
      as [(h & w2 & HN & Hx & Hm2 & Hg & _) | (w2 & _ & Hno)].
    2:{ exfalso. apply Hno. unfold v8_ok. rewrite Hi. exact Hv8. }
    rewrite (bind_run _ _ w1 w2 (Returned h) HN), Habbr.
    exists h. split; [reflexivity | exact Hg].
  - intros a Habbr Hsrv Hpeer Hall (Hf & Hn & Hv8).
    unfold leading. rewrite Hsrv, Hpeer.
    destruct (New_cases e (Some a) w1)
      as [(h & w2 & HN & Hx & Hm2 & Hg & Hi2 & _) | (w2 & _ & Hno)].
    2:{ exfalso. apply Hno. unfold v8_ok. rewrite Hi. split; assumption. }
    rewrite (bind_run _ _ w1 w2 (Returned h) HN), Habbr.
    assert (Hloop : exists hs w3,
      GetPeerCert_loop e (peer_cert_chain ssl)
        (length (chain_entries ssl)) 0 [h] w2
        = (Returned (Some ([h] ++ hs)), w3) /\
      x509s w2 ⊆ x509s w3 /\ managed w2 ⊆ managed w3 /\
      Forall2 (duplicate_of w2 w3) (chain_entries ssl) hs /\
      NoDup (map (fun h => get h w3) hs)).
    { unfold chain_entries in *.
      destruct (peer_cert_chain ssl) as [l|]; cbn [default] in *.
      - destruct (GetPeerCert_loop_ok e l [] [h] w2)
          as (hs & w3 & HL & Hx3 & Hm3 & _ & Hd & Hnd).
        + eapply Forall_impl; [exact Hall |].
          intros b (c & n & c' & Hb & Hdup).
          destruct (Hkeep b c n Hb) as [n' Hb'].
          exists c, n', c'. rewrite Hx. auto.
        + rewrite Hi2, Hi. exact Hv8.
        + exists hs, w3. auto.
      - exists [], w2. cbn. repeat split; auto; constructor. }
    destruct Hloop as (hs & w3 & HL & Hx3 & Hm3 & Hd & Hnd).
    rewrite HL. cbn [fst snd app].
    exists h, hs. split; [reflexivity |].
    split; [eapply get_weaken; eassumption |].
    split; [| exact Hnd].
    eapply Forall2_impl_Forall; [exact Hall | exact Hd |].
    intros b hb (c0 & n0 & c0' & Hb0 & _)
      (a' & c & c' & n & Hb & Hdup & Hgb & Hfresh & Hc').
    destruct (Hkeep b c0 n0 Hb0) as [n' Hb'].
    rewrite Hx, Hb' in Hb. injection Hb as <- <-.
    exists a', c0, c', n0. repeat split; auto.
    apply Hnew. rewrite <- Hx. exact Hfresh.
  - intros Hnone.
    destruct (leading (is_server_flag flag) ssl) as [a|] eqn:Hlead;
      [right | left; reflexivity].
    destruct (New_cases e (Some a) w1)
      as [(h & w2 & HN & Hx & _) | (w2 & HN & _)].
    2:{ rewrite (bind_run _ _ w1 w2 _ HN) in Hnone. discriminate. }
    rewrite (bind_run _ _ w1 w2 (Returned h) HN) in Hnone.
    destruct (abbreviated_flag flag); [discriminate |].
    split; [reflexivity |].
    cbn [fst] in Hnone.
    unfold chain_entries in *.
    destruct (peer_cert_chain ssl) as [l|]; cbn [default from_option id] in *.
    + destruct (GetPeerCert_loop e (Some l) (length l) 0 [h] w2)
        as [r w3] eqn:HL.
      cbn [fst] in Hnone. subst r.
      destruct (GetPeerCert_loop_none e l [] [h] w2 w3 HL)
        as (b & Hin & Hb).
      exists b. split; [exact Hin |].
      eapply cannot_duplicate_earlier; [| exact Hb].
      intros c n Hc. rewrite Hx. exact (Hkeep _ _ _ Hc).
    + cbn in Hnone. discriminate.
Qed.

End SessionFacts.

(** * Sharing and immutability of the decoded certificate *)

Section SharingFacts.
Context `{lib : Collaborators}.

Lemma keeps_refl (h : gmap addr (X509 * nat)) : keeps h h.
Proof. intros a c n H. eauto. Qed.

Lemma keeps_trans (h1 h2 h3 : gmap addr (X509 * nat)) :
  keeps h1 h2 -> keeps h2 h3 -> keeps h1 h3.
Proof.
  intros H12 H23 a c n H. destruct (H12 a c n H) as [n' H']. eauto.
Qed.

Lemma keeps_add_ref (a : addr) (h : gmap addr (X509 * nat)) :
  keeps h (add_ref a h).
Proof.
  intros b c n H. rewrite lookup_add_ref, H.
  destruct (decide (a = b)); simpl; eauto.
Qed.

Lemma keeps_fresh (c : X509) (h : gmap addr (X509 * nat)) :
  keeps h (<[fresh (dom h) := (c, 1%nat)]> h).
Proof.
  intros b cb n H. exists n. rewrite lookup_insert_ne; [exact H |].
  intros <-. pose proof (is_fresh (dom h)) as Hf.
  apply not_elem_of_dom in Hf. congruence.
Qed.

Lemma keeps_content_kept (h h' : gmap addr (X509 * nat)) :
  keeps h h' -> content_kept h h'.
Proof.
  intros Hk a c n H. destruct (Hk a c n H) as [n' H']. rewrite H'.
  reflexivity.
Qed.

Lemma keeps_drop_content_kept (x : addr) (h h' : gmap addr (X509 * nat)) :
  keeps h h' -> content_kept h (drop_ref x h').
Proof.
  intros Hk a c n H. destruct (Hk a c n H) as [n' H'].
  rewrite lookup_drop_ref, H'.
  destruct (decide (x = a)); [| reflexivity].
  destruct n' as [|[|n']]; auto.
Qed.

(** What New does to the X509 objects: nothing when it succeeds; when it
    fails the ManagedX509 it made is destroyed, and the pointer it was
    given with it. *)
Lemma New_x509s (e : Environment) (cert : X509Pointer) (w : World) :
  x509s (snd (New e cert w)) = x509s w \/
  exists a, cert = Some a /\
            fst (New e cert w) = Threw PendingException /\
            x509s (snd (New e cert w)) = drop_ref a (x509s w).
Proof.
  assert (Hfreshm : managed w !! fresh (dom (managed w)) = None).
  { apply not_elem_of_dom. apply is_fresh. }
  destruct (New e cert w) as [r w'] eqn:E; simpl.
  cbv [New bind shared_new New_shared v8_call ret set_managed] in E.
  world_simpl_in E.
  assert (Hrel : forall i : Isolate,
    x509s (snd (shared_release (fresh (dom (managed w)))
      {| x509s := x509s w;
         managed := <[fresh (dom (managed w)) := ({| cert_ := cert |}, 1%nat)]>
                      (managed w);
         error_queue := error_queue w; isolate := i |}))
    = match cert with
      | Some a => drop_ref a (x509s w)
      | None => x509s w
      end).
  { intros i. rewrite shared_release_x509s. world_simpl.
    rewrite lookup_insert_eq. reflexivity. }
  destruct (GetFunction (isolate w)) as [[] i1]; world_simpl_in E.
  - destruct (NewInstance i1) as [[] i2]; world_simpl_in E.
    + injection E as <- <-. left. reflexivity.
    + destruct (shared_release _ _) as [u w2] eqn:E2.
      injection E as <- <-.
      pose proof (Hrel i2) as H. rewrite E2 in H. simpl in H.
      destruct cert as [a|]; [right; eauto | left; exact H].
  - destruct (shared_release _ _) as [u w2] eqn:E2.
    injection E as <- <-.
    pose proof (Hrel i1) as H. rewrite E2 in H. simpl in H.
    destruct cert as [a|]; [right; eauto | left; exact H].
Qed.

(** Decoding a certificate and wrapping it: one new X509 object, or none
    when wrapping fails. *)
Lemma alloc_New_x509s (e : Environment) (c : X509) (w : World) :
  x509s (snd ((a <- X509_alloc c ;; New e (Some a)) w)) = x509s w \/
  x509s (snd ((a <- X509_alloc c ;; New e (Some a)) w))
    = <[fresh (dom (x509s w)) := (c, 1%nat)]> (x509s w).
Proof.
  assert (Hfresh : x509s w !! fresh (dom (x509s w)) = None).
  { apply not_elem_of_dom. apply is_fresh. }
  remember (x509s (snd ((a <- X509_alloc c ;; New e (Some a)) w))) as X
    eqn:HX.
  unfold bind, X509_alloc in HX. world_simpl_in HX.
  set (a := fresh (dom (x509s w))) in *.
  set (w1 := snd (set_x509s (fun h => <[a := (c, 1%nat)]> h) w)) in *.
  destruct (New_x509s e (Some a) w1) as [H | (a' & [= <-] & _ & H)];
    rewrite H in HX; subst w1; cbn [set_x509s snd x509s] in HX.
  - right. exact HX.
  - left. rewrite HX. unfold drop_ref. rewrite lookup_insert_eq.
    apply delete_insert_id. exact Hfresh.
Qed.

Lemma alloc_New_keeps (e : Environment) (c : X509) (w w' : World) :
  x509s w' = x509s w ->
  keeps (x509s w) (x509s (snd ((a <- X509_alloc c ;; New e (Some a)) w'))).
Proof.
  intros <-. destruct (alloc_New_x509s e c w') as [H | H]; rewrite H.
  - apply keeps_refl.
  - apply keeps_fresh.
Qed.

(** The rules of [keeps_certificates]: returning, an operation on the
    error queue before or after, reading an error, decoding and wrapping. *)
Lemma kc_ret {A} (x : A) : keeps_certificates (ret x).
Proof. intros w0 w H. cbn. rewrite H. apply keeps_refl. Qed.

Lemma kc_queue {A} (f : list (Z * bool) -> list (Z * bool)) (m : M A) :
  keeps_certificates m -> keeps_certificates (set_error_queue f ;; m).
Proof. intros Hm w0 w H. apply Hm. exact H. Qed.

Lemma kc_queue_after {A} (f : list (Z * bool) -> list (Z * bool)) (m : M A) :
  keeps_certificates m ->
  keeps_certificates (r <- m ;; set_error_queue f ;; ret r).
Proof.
  intros Hm w0 w H. unfold bind at 1.
  pose proof (Hm w0 w H) as Hk.
  destruct (m w) as [r w1]. exact Hk.
Qed.

Lemma kc_get_error {A} (k : Z -> M A) :
  (forall err, keeps_certificates (k err)) ->
  keeps_certificates (err <- ERR_get_error ;; k err).
Proof.
  intros Hk w0 w H. unfold bind at 1, ERR_get_error.
  destruct (error_queue w) as [|[err b] q]; apply Hk; exact H.
Qed.

Lemma kc_alloc_New (e : Environment) (c : X509) :
  keeps_certificates (a <- X509_alloc c ;; New e (Some a)).
Proof. intros w0 w H. apply alloc_New_keeps. exact H. Qed.

(** Parse destroys nothing and changes no content. *)
Lemma Parse_keeps (e : Environment) (args : list Value) :
  keeps_certificates (Parse e args).
Proof.
  unfold Parse.
  destruct (arg 0 args) as [| | | |data|]; try apply kc_ret.
  cbv zeta. unfold ClearErrorOnReturn, ERR_clear_error.
  apply kc_queue_after.
  destruct (LoadBIO data) as [[bio|] es0]; unfold raise at 1; apply kc_queue.
  - destruct (PEM_read_bio_X509_AUX bio) as [[[c|] es1] rest];
      unfold raise at 1; apply kc_queue.
    + apply kc_alloc_New.
    + unfold MarkPopErrorOnReturn, ERR_set_mark, ERR_pop_to_mark.
      apply kc_queue, kc_queue_after.
      destruct (d2i_X509 _) as [[c|] es2]; unfold raise at 1; apply kc_queue.
      * apply kc_alloc_New.
      * apply kc_get_error. intros err. apply kc_ret.
  - apply kc_get_error. intros err. apply kc_ret.
Qed.

Lemma keeps_but_one_keeps (h h1 : gmap addr (X509 * nat)) :
  keeps h h1 -> keeps_but_one h h1.
Proof. intros H. exists h1. auto. Qed.

Lemma keeps_but_one_trans (h h1 h2 : gmap addr (X509 * nat)) :
  keeps h h1 -> keeps_but_one h1 h2 -> keeps_but_one h h2.
Proof.
  intros H (h' & Hk & Hh). exists h'. split; [| exact Hh].
  eapply keeps_trans; eassumption.
Qed.

Lemma keeps_but_one_content_kept (h h1 : gmap addr (X509 * nat)) :
  keeps_but_one h h1 -> content_kept h h1.
Proof.
  intros (h' & Hk & [-> | [x ->]]).
  - apply keeps_content_kept. exact Hk.
  - apply keeps_drop_content_kept. exact Hk.
Qed.

(** X509_dup on a pointer fails and changes nothing, or makes one new
    object. *)
Lemma X509_dup_ptr_cases (p : X509Pointer) (w : World) :
  X509_dup_ptr p w = (None, w) \/
  exists c,
    X509_dup_ptr p w =
    (Some (fresh (dom (x509s w))),
     snd (set_x509s (fun h => <[fresh (dom (x509s w)) := (c, 1%nat)]> h) w)).
Proof.
  unfold X509_dup_ptr.
  destruct (p ≫= _) as [[c n]|]; [| left; reflexivity].
  destruct (X509_dup c) as [c'|]; [| left; reflexivity].
  right. exists c'. reflexivity.
Qed.

(** The loop keeps every certificate it found, but for the duplicate it
    destroys when wrapping it fails. *)
Lemma GetPeerCert_loop_keeps (e : Environment) (sk : option (list addr))
    (fuel : nat) :
  forall (i : nat) (certs : list X509Certificate) (w : World),
    keeps_but_one (x509s w)
      (x509s (snd (GetPeerCert_loop e sk fuel i certs w))).
Proof.
  induction fuel as [|fuel IH]; intros i certs w.
  - apply keeps_but_one_keeps, keeps_refl.
  - cbn [GetPeerCert_loop]. unfold bind at 1.
    destruct (X509_dup_ptr_cases (sk_X509_value sk i) w) as [-> | [c ->]].
    + apply keeps_but_one_keeps, keeps_refl.
    + set (a := fresh (dom (x509s w))).
      set (w1 := snd (set_x509s _ w)).
      assert (Hw1 : keeps (x509s w) (x509s w1)) by apply keeps_fresh.
      unfold bind at 1.
      destruct (New_x509s e (Some a) w1) as [H | (a' & [= <-] & Hr & H)];
        destruct (New e (Some a) w1) as [r w2]; cbn [fst snd] in *.
      * destruct r as [obj|err| |].
        -- eapply keeps_but_one_trans; [| apply IH].
           rewrite H. exact Hw1.
        -- apply keeps_but_one_keeps. cbn. rewrite H. exact Hw1.
        -- apply keeps_but_one_keeps. cbn. rewrite H. exact Hw1.
        -- apply keeps_but_one_keeps. cbn. rewrite H. exact Hw1.
      * subst r. cbn. exists (x509s w1). split; [exact Hw1 |].
        right. exists a. exact H.
Qed.

(** GetPeerCert keeps every certificate it found, but for the leading one
    or a duplicate when wrapping it fails. *)
Lemma GetPeerCert_keeps (e : Environment) (ssl : SSL) (flag : Z) (w : World) :
  keeps_but_one (x509s w) (x509s (snd (GetPeerCert e ssl flag w))).
Proof.
  rewrite GetPeerCert_unfold. cbv zeta. cbn [snd].
  change (x509s (snd (ERR_clear_error ?W))) with (x509s W).
  destruct (peer_certificate_state ssl (is_server_flag flag) w)
    as (_ & _ & Hkeep & _).
  set (w1 := snd ((if is_server_flag flag then SSL_get_peer_certificate ssl
                   else ret None) w)) in *.
  assert (Hw1 : keeps (x509s w) (x509s w1)) by exact Hkeep.
  destruct (leading (is_server_flag flag) ssl) as [a|].
  2:{ apply keeps_but_one_keeps. exact Hw1. }
  unfold bind at 1.
  destruct (New_x509s e (Some a) w1) as [H | (a' & [= <-] & Hr & H)];
    destruct (New e (Some a) w1) as [r w2]; cbn [fst snd] in *.
  - destruct r as [obj|err| |];
      try (apply keeps_but_one_keeps; cbn; rewrite H; exact Hw1).
    destruct (abbreviated_flag flag).
    + apply keeps_but_one_keeps. cbn. rewrite H. exact Hw1.
    + eapply keeps_but_one_trans; [| apply GetPeerCert_loop_keeps].
      rewrite H. exact Hw1.
  - subst r. cbn. exists (x509s w1). split; [exact Hw1 |].
    right. exists a. exact H.
Qed.

(** C7.  Copying a ManagedX509 yields a wrapper of the same X509 object
    and adds one reference to it, decoding nothing, and so does assigning
    it to a wrapper that held another object or none; an X509Certificate
    is transferred by cloning, and cloning it captures the same shared
    ManagedX509 and adds one owner to it, leaving every X509 object as it
    was.  Whatever
    the operation on the owners (copy, assignment, destruction, clone,
    unpacking, release of one owner), a decoded certificate that is still
    there has the content it had, and one that was destroyed had at most
    one reference left; while a ManagedX509 has another owner, the
    destruction of one owner touches no decoded certificate.  Decoding
    (Parse) and extracting the peer certificates (GetPeerCert) change the
    content of no decoded certificate either. *)
Theorem copies_share_one_decoded_value :
  (forall (that : ManagedX509) (w : World) (p : addr) (c : X509) (n : nat),
     cert_ that = Some p ->
     x509s w !! p = Some (c, n) ->
     fst (ManagedX509_copy that w) = {| cert_ := Some p |} /\
     x509s (snd (ManagedX509_copy that w)) = <[p := (c, S n)]> (x509s w) /\
     managed (snd (ManagedX509_copy that w)) = managed w) /\
  (forall (this that : ManagedX509) (w : World) (p : addr) (c : X509)
          (n : nat),
     cert_ that = Some p ->
     cert_ this <> Some p ->
     x509s w !! p = Some (c, n) ->
     fst (ManagedX509_assign this that w) = {| cert_ := Some p |} /\
     x509s (snd (ManagedX509_assign this that w)) !! p = Some (c, S n)) /\
  (forall (this : X509Certificate) (w : World) (m : ManagedX509) (n : nat),
     managed w !! shared_cert_ this = Some (m, n) ->
     GetTransferMode this = kCloneable /\
     data_ (fst (CloneForMessaging this w)) = shared_cert_ this /\
     managed (snd (CloneForMessaging this w))
       = <[shared_cert_ this := (m, S n)]> (managed w) /\
     x509s (snd (CloneForMessaging this w)) = x509s w) /\
  (forall (op : Op) (w : World), survives (x509s w) (x509s (run op w))) /\
  (forall (owner : addr) (w : World) (m : ManagedX509) (n : nat),
     managed w !! owner = Some (m, S (S n)) ->
     x509s (run (OpRelease owner) w) = x509s w /\
     managed (run (OpRelease owner) w) !! owner = Some (m, S n)) /\
  (forall (e : Environment) (args : list Value) (w : World),
     content_kept (x509s w) (x509s (snd (Parse e args w)))) /\
  (forall (e : Environment) (ssl : SSL) (flag : Z) (w : World),
     content_kept (x509s w) (x509s (snd (GetPeerCert e ssl flag w)))).
Proof.
  split; [| split; [| split; [| split; [| split; [| split]]]]].
  - intros [q] w p c n Hq Hp; simpl in Hq; subst q.
    split; [reflexivity |]. split; [| reflexivity].
    cbn. unfold add_ref. apply alter_count. exact Hp.
  - intros [o] [q] w p c n Hq Ho Hp; simpl in Hq, Ho; subst q.
    split; [destruct o; reflexivity |].
    destruct o as [o|]; cbn.
    + rewrite lookup_add_ref, lookup_drop_ref.
      destruct (decide (p = p)); [| congruence].
      destruct (decide (o = p)); [congruence |]. rewrite Hp. reflexivity.
    + rewrite lookup_add_ref.
      destruct (decide (p = p)); [| congruence]. rewrite Hp. reflexivity.
  - intros this w m n Hm.
    split; [reflexivity |]. split; [reflexivity |]. split; [| reflexivity].
    cbn. apply alter_count. exact Hm.
  - intros op w.
    destruct (run_x509s op w) as [H | [[a H] | [[a H] | (o & p & H)]]];
      rewrite H.
    + apply survives_refl.
    + apply survives_add_ref.
    + apply survives_drop_ref.
    + apply survives_drop_add.
  - intros owner w m n H. cbn [run]. split.
    + rewrite shared_release_x509s, H. reflexivity.
    + rewrite shared_release_managed, H. apply lookup_insert_eq.
  - intros e args w. apply keeps_content_kept.
    apply Parse_keeps. reflexivity.
  - intros e ssl flag w. apply keeps_but_one_content_kept.
    apply GetPeerCert_keeps.
Qed.

End SharingFacts.

(** The session extractor on the test double. *)

(** On a server-side session the result is what the specification
    expects: the verified peer certificate, then the chain. *)
Example GetPeerCert_server_as_specified :
  peer_contents (GetPeerCert (lib := toy) toy_env server_session 1 toy_world)
  = Some [Some 10%nat; Some 20%nat] /\
  fromPeer_expected (lib := toy) toy_world server_session 1
  = Some [Some 10%nat; Some 20%nat].
Proof. split; vm_compute; reflexivity. Qed.

(** On a client-side session the first entry of the chain comes twice:
    once as the leading certificate and once more from the loop, which
    starts at index 0. *)
Example GetPeerCert_repeats_first_entry :
  peer_contents (GetPeerCert (lib := toy) toy_env client_session 0 toy_world)
  = Some [Some 10%nat; Some 10%nat; Some 20%nat].
Proof. vm_compute. reflexivity. Qed.

(** C5 as stated fails.  With a chain whose second entry X509_dup fails
    on, the result is absent although the session has peer certificates;
    and on a client-side session the certificates returned are not the
    leading one followed by the remaining chain. *)
Lemma GetPeerCert_not_as_specified :
  (fst (GetPeerCert (lib := toy) toy_env undupable_session 0 toy_world)
   = Returned None /\
   fromPeer_expected (lib := toy) toy_world undupable_session 0
   = Some [Some 10%nat; Some 13%nat]) /\
  peer_contents (GetPeerCert (lib := toy) toy_env client_session 0 toy_world)
  <> fromPeer_expected (lib := toy) toy_world client_session 0.
Proof.
  split; [split; vm_compute; reflexivity |].
  vm_compute. discriminate.
Qed.

(** A client-side call wraps entry 0 of the session's chain itself, with
    no reference of its own: the count of that certificate is still 1, and
    the destruction of the object returned destroys it. *)
Example GetPeerCert_client_borrows_first_entry :
  fst (GetPeerCert (lib := toy) toy_env client_session 2 toy_world)
    = Returned (Some [toy_cert]) /\
  get toy_cert
    (snd (GetPeerCert (lib := toy) toy_env client_session 2 toy_world))
    = Some 1%positive /\
  x509s (snd (GetPeerCert (lib := toy) toy_env client_session 2 toy_world))
    !! 1%positive = Some (10%nat, 1%nat) /\
  x509s (run (OpRelease 1%positive)
           (snd (GetPeerCert (lib := toy) toy_env client_session 2
                   toy_world)))
    !! 1%positive = None.
Proof. repeat split; vm_compute; reflexivity. Qed.

(** Assigning a ManagedX509 to itself while it holds the last reference:
    reset frees the certificate before X509_up_ref is reached. *)
Example ManagedX509_self_assign_last_reference :
  x509s (snd (ManagedX509_assign (lib := toy)
                {| cert_ := Some 1%positive |} {| cert_ := Some 1%positive |}
                toy_shared_world))
    !! 1%positive = None.
Proof. vm_compute. reflexivity. Qed.

(** * The theorems on the test double *)

(** A buffer that is neither PEM nor DER: the error thrown is the one the
    PEM reader raised.  A DER buffer: the certificate of the DER decoder. *)
(** C2.  The error Parse reports is not always that of the PEM attempt.
    The one byte 0x41 is neither PEM nor DER: the PEM attempt raises
    151584876 and the DER attempt two errors of its own.  From an empty
    error queue Parse throws the code of the PEM attempt.  With an error
    left in the queue by an earlier call ([toy_stale_world], code
    67108983) Parse throws that code instead: ERR_get_error returns the
    oldest entry of the queue, and Parse clears the queue when it returns,
    not when it starts. *)
Theorem Parse_reports_stale_error :
  PEM_read_bio_X509_AUX (Collaborators := toy) [Byte.x41]
    = (None, [151584876], [Byte.x41]) /\
  d2i_X509 (Collaborators := toy) [Byte.x41]
    = (None, [218529960; 218595386]) /\
  fst (Parse (lib := toy) toy_env [VArrayBufferView [Byte.x41]] toy_world)
    = Threw (CryptoError 151584876) /\
  codes (error_queue toy_stale_world) = [67108983] /\
  fst (Parse (lib := toy) toy_env [VArrayBufferView [Byte.x41]]
         toy_stale_world)
    = Threw (CryptoError 67108983).
Proof. repeat split; vm_compute; reflexivity. Qed.

Lemma Parse_pem_then_der_witness :
  (error_queue toy_world = [] /\
   Z.of_nat (length [Byte.x41; Byte.x42]) < 2 ^ 32 /\
   LoadBIO (Collaborators := toy) [Byte.x41; Byte.x42]
     = (Some [Byte.x41; Byte.x42], []) /\
   fst (Parse (lib := toy) toy_env
          [VArrayBufferView [Byte.x41; Byte.x42]] toy_world)
     = Threw (CryptoError 151584876)) /\
  (v8_ok toy_world /\
   exists h,
     fst (Parse (lib := toy) toy_env
            [VArrayBufferView [Byte.x30; Byte.x42]] toy_world) = Returned h /\
     decoded h (snd (Parse (lib := toy) toy_env
                       [VArrayBufferView [Byte.x30; Byte.x42]] toy_world))
       = Some 1%nat).
Proof.
  assert (Hq : error_queue toy_world = []) by reflexivity.
  assert (Hlen : Z.of_nat (length [Byte.x41; Byte.x42]) < 2 ^ 32)
    by reflexivity.
  assert (Hbio : LoadBIO (Collaborators := toy) [Byte.x41; Byte.x42]
                 = (Some [Byte.x41; Byte.x42], [])) by reflexivity.
  assert (Hv8 : v8_ok toy_world) by (split; reflexivity).
  split.
  - split; [exact Hq |]. split; [exact Hlen |]. split; [exact Hbio |].
    destruct (Parse_pem_then_der (lib := toy) toy_env
                [Byte.x41; Byte.x42] [Byte.x41; Byte.x42] toy_world
                Hq Hlen Hbio) as (_ & _ & H).
    apply (H 151584876 [] [Byte.x41; Byte.x42] [218529960; 218595386]);
      reflexivity.
  - split; [exact Hv8 |].
    assert (Hlen' : Z.of_nat (length [Byte.x30; Byte.x42]) < 2 ^ 32)
      by reflexivity.
    assert (Hbio' : LoadBIO (Collaborators := toy) [Byte.x30; Byte.x42]
                    = (Some [Byte.x30; Byte.x42], [])) by reflexivity.
    destruct (Parse_pem_then_der (lib := toy) toy_env
                [Byte.x30; Byte.x42] [Byte.x30; Byte.x42] toy_world
                Hq Hlen' Hbio') as (_ & H & _).
    apply (H 1%nat [151584876] [Byte.x30; Byte.x42] []);
      [reflexivity | reflexivity | exact Hv8].
Defined.

(** Unpacking the package of [toy_cert] in its own context, and in
    another. *)
Lemma Deserialize_context_guard_witness :
  context toy_env = 7%nat /\
  v8_ok toy_shared_world /\
  fst (Deserialize (lib := toy) {| data_ := 1%positive |} toy_env 7
         toy_shared_world)
    = Returned toy_cert /\
  (managed toy_shared_world !! 1%positive
     = Some ({| cert_ := Some 1%positive |}, 1%nat) /\
   get toy_cert (snd (Deserialize (lib := toy) {| data_ := 1%positive |}
                        toy_env 7 toy_shared_world)) = Some 1%positive /\
   x509s (snd (Deserialize (lib := toy) {| data_ := 1%positive |}
                 toy_env 7 toy_shared_world)) = x509s toy_shared_world) /\
  (8%nat <> context toy_env <->
   fst (Deserialize (lib := toy) {| data_ := 1%positive |} toy_env 8
          toy_shared_world)
     = Threw ERR_MESSAGE_TARGET_CONTEXT_UNAVAILABLE).
Proof.
  assert (Hctx : 7%nat = context toy_env) by reflexivity.
  assert (Hv8 : v8_ok toy_shared_world) by (split; reflexivity).
  assert (Hm : managed toy_shared_world !! 1%positive
               = Some ({| cert_ := Some 1%positive |}, 1%nat))
    by reflexivity.
  destruct (Deserialize_context_guard (lib := toy)
              {| data_ := 1%positive |} toy_env 7 toy_shared_world)
    as (_ & Hok & Hshare).
  pose proof (Hok Hctx Hv8) as Hr.
  destruct (Hshare toy_cert {| cert_ := Some 1%positive |} 0%nat Hr Hm)
    as (_ & _ & _ & Hget & Hx & _).
  split; [reflexivity |].
  split; [exact Hv8 |].
  split; [exact Hr |].
  split; [split; [exact Hm | split; [exact Hget | exact Hx]] |].
  exact (proj1 (Deserialize_context_guard (lib := toy)
           {| data_ := 1%positive |} toy_env 8 toy_shared_world)).
Defined.

(** Copying the ManagedX509 of [toy_cert] and cloning [toy_cert]. *)
Lemma copies_share_one_decoded_value_witness :
  (x509s toy_shared_world !! 1%positive = Some (10%nat, 1%nat) /\
   fst (ManagedX509_copy (lib := toy) {| cert_ := Some 1%positive |}
          toy_shared_world) = {| cert_ := Some 1%positive |} /\
   x509s (snd (ManagedX509_copy (lib := toy) {| cert_ := Some 1%positive |}
                 toy_shared_world))
     = <[1%positive := (10%nat, 2%nat)]> (x509s toy_shared_world)) /\
  (managed toy_shared_world !! 1%positive
     = Some ({| cert_ := Some 1%positive |}, 1%nat) /\
   managed (snd (CloneForMessaging (lib := toy) toy_cert toy_shared_world))
     = <[1%positive := ({| cert_ := Some 1%positive |}, 2%nat)]>
         (managed toy_shared_world) /\
   x509s (snd (CloneForMessaging (lib := toy) toy_cert toy_shared_world))
     = x509s toy_shared_world).
Proof.
  assert (Hx : x509s toy_shared_world !! 1%positive = Some (10%nat, 1%nat))
    by reflexivity.
  assert (Hm : managed toy_shared_world !! shared_cert_ toy_cert
               = Some ({| cert_ := Some 1%positive |}, 1%nat))
    by reflexivity.
  destruct (copies_share_one_decoded_value (lib := toy))
    as (Hcopy & _ & Hclone & _).
  destruct (Hcopy {| cert_ := Some 1%positive |} toy_shared_world
              1%positive 10%nat 1%nat eq_refl Hx) as (H1 & H2 & _).
  destruct (Hclone toy_cert toy_shared_world
              {| cert_ := Some 1%positive |} 1%nat Hm) as (_ & _ & H3 & H4).
  split; [split; [exact Hx | split; [exact H1 | exact H2]] |].
  split; [exact Hm | split; [exact H3 | exact H4]].
Defined.

(** A server-side call on the test double: the verified peer certificate,
    then a duplicate of the one entry of the chain.  An abbreviated
    client-side call: the first entry of the chain alone.  A chain with an
    entry that cannot be duplicated: the absent result is traced to it. *)
Lemma GetPeerCert_leading_then_chain_witness :
  (abbreviated_flag (lib := toy) 1 = false /\
   is_server_flag (lib := toy) 1 = true /\
   peer_certificate server_session = Some 1%positive /\
   exists (h : X509Certificate) (hs : list X509Certificate),
     fst (GetPeerCert (lib := toy) toy_env server_session 1 toy_world)
       = Returned (Some (h :: hs)) /\
     get h (snd (GetPeerCert (lib := toy) toy_env server_session 1 toy_world))
       = Some 1%positive /\
     Forall2 (duplicate_of toy_world
                (snd (GetPeerCert (lib := toy) toy_env server_session 1
                        toy_world)))
             (chain_entries server_session) hs) /\
  (abbreviated_flag (lib := toy) 2 = true /\
   leading (is_server_flag (lib := toy) 2) client_session
     = Some 1%positive /\
   exists h : X509Certificate,
     fst (GetPeerCert (lib := toy) toy_env client_session 2 toy_world)
       = Returned (Some [h]) /\
     get h (snd (GetPeerCert (lib := toy) toy_env client_session 2 toy_world))
       = Some 1%positive) /\
  (fst (GetPeerCert (lib := toy) toy_env undupable_session 0 toy_world)
     = Returned None /\
   (leading (is_server_flag (lib := toy) 0) undupable_session = None \/
    (abbreviated_flag (lib := toy) 0 = false /\
     exists b : addr, In b (chain_entries undupable_session) /\
                      cannot_duplicate toy_world b))).
Proof.
  assert (Habbr : abbreviated_flag (lib := toy) 1 = false) by reflexivity.
  assert (Hsrv : is_server_flag (lib := toy) 1 = true) by reflexivity.
  assert (Hpeer : peer_certificate server_session = Some 1%positive)
    by reflexivity.
  assert (Hv8 : v8_ok toy_world) by (split; reflexivity).
  split; [| split].
  - split; [exact Habbr |]. split; [exact Hsrv |]. split; [exact Hpeer |].
    destruct (GetPeerCert_leading_then_chain (lib := toy) toy_env
                server_session 1 toy_world) as (_ & _ & H & _).
    destruct (H 1%positive Habbr Hsrv Hpeer) as (h & hs & H1 & H2 & H3 & _).
    + constructor; [| constructor]. exists 20%nat, 1%nat, 20%nat.
      split; reflexivity.
    + simpl. split; [reflexivity | split; [reflexivity |]].
      split; [reflexivity | split; [reflexivity | exact I]].
    + exists h, hs. split; [exact H1 | split; [exact H2 | exact H3]].
  - split; [reflexivity |]. split; [reflexivity |].
    destruct (GetPeerCert_leading_then_chain (lib := toy) toy_env
                client_session 2 toy_world) as (_ & H & _).
    apply (H 1%positive); [reflexivity | reflexivity | exact Hv8].
  - assert (Hnone : fst (GetPeerCert (lib := toy) toy_env undupable_session
                           0 toy_world) = Returned None)
      by (vm_compute; reflexivity).
    split; [exact Hnone |].
    destruct (GetPeerCert_leading_then_chain (lib := toy) toy_env
                undupable_session 0 toy_world) as (_ & _ & _ & H).
    exact (H Hnone).
Defined.

(** * Further properties of the verifier *)

Section MoreVerifierFacts.
Context `{acc : Accessors}.



(** A C string does not see what follows its first NUL. *)
Lemma c_str_nul (s1 s2 : string) :
  c_str (s1 ++ String Ascii.zero s2) = c_str s1.
Proof.
  induction s1 as [|c s1 IH]; simpl.
  - reflexivity.
  - destruct (Ascii.eqb c Ascii.zero); [reflexivity |].
    rewrite IH. reflexivity.
Qed.

(** X2.  checkIP hands the address to the library as a C string: an
    address followed by a NUL character and any suffix matches exactly when
    the address alone matches, it is invalid or fails exactly when the
    address alone is or does, and on a match the value returned is the
    whole argument, suffix included. *)
Theorem CheckIP_stops_at_NUL (cert : X509) (address suffix : string)
    (flags : Z) :
  let whole := (address ++ String Ascii.zero suffix)%string in
  (CheckIP cert [VString whole; VUint32 flags] = Returned (VString whole)
   <-> CheckIP cert [VString address; VUint32 flags]
       = Returned (VString address)) /\
  (forall e,
     CheckIP cert [VString whole; VUint32 flags] = Threw e
     <-> CheckIP cert [VString address; VUint32 flags] = Threw e) /\
  (CheckIP cert [VString whole; VUint32 flags] = Returned VUndefined
   <-> CheckIP cert [VString address; VUint32 flags] = Returned VUndefined).
Proof.
  cbv zeta. rewrite !CheckIP_rc, c_str_nul.
  destruct (X509_check_ip_asc cert (c_str address) flags) as [|p|p];
    [| destruct p | destruct p as [p|p|]; [| destruct p |]];
    cbn; repeat split; intros; try discriminate; try reflexivity;
    try assumption.
Qed.

(** X3.  The object publicKey returns is a key object of type public
    holding the key X509_get_pubkey gave: handed to verify, of this or any
    other certificate, it passes the CHECK and the result is the boolean
    of X509_verify; handed to checkPrivateKey it always aborts. *)
Theorem PublicKey_feeds_Verify (cert other : X509) (args : list Value)
    (v : Value) :
  PublicKey cert args = Returned v ->
  Verify other [v]
    = Returned (VBoolean (0 <? X509_verify other (X509_get_pubkey cert))) /\
  CheckPrivateKey other [v] = Aborted.
Proof.
  unfold PublicKey. cbv zeta.
  destruct (KeyObjectHandle_Create _); [| discriminate].
  intros [= <-]. split; reflexivity.
Qed.

(** X4.  The relationship checks never throw, whatever their arguments.
    checkCA is true exactly when X509_check_ca returns 1: the other codes
    by which the library tells a CA give false.  checkIssued returns a
    boolean or aborts, and aborts exactly when its argument is not an
    X509Certificate, a buffer included.  checkPrivateKey never throws;
    it and verify abort when their argument is not an object, where a
    buffer is one. *)
Theorem relationship_checks_never_throw (cert : X509) (args : list Value) :
  (CheckCA cert args = Returned (VBoolean true) <-> X509_check_ca cert = 1) /\
  (CheckCA cert args = Returned (VBoolean false)
   <-> X509_check_ca cert <> 1) /\
  (CheckIssued cert args = Aborted <-> HasInstance (arg 0 args) = false) /\
  (HasInstance (arg 0 args) = true ->
   exists b, CheckIssued cert args = Returned (VBoolean b)) /\
  (forall e, CheckIssued cert args <> Threw e) /\
  (forall e, CheckPrivateKey cert args <> Threw e) /\
  (IsObject (arg 0 args) = false ->
   CheckPrivateKey cert args = Aborted /\ Verify cert args = Aborted).
Proof.
  split.
  { unfold CheckCA. split.
    - intros [= H]. apply Z.eqb_eq. exact H.
    - intros ->. reflexivity. }
  split.
  { unfold CheckCA. split.
    - intros [= H]. apply Z.eqb_neq. exact H.
    - intros H. apply Z.eqb_neq in H. rewrite H. reflexivity. }
  unfold CheckIssued, CheckPrivateKey, Verify.
  destruct (arg 0 args) as [| | | | |[| issuer | key]]; cbn;
    repeat split; intros; try discriminate; try reflexivity; eauto.
  destruct (KeyType_eqb _ _); discriminate.
Qed.

End MoreVerifierFacts.

Lemma PublicKey_feeds_Verify_witness :
  PublicKey (acc := toy_accessors) 5%nat [] =
    Returned (VObject (KeyObject (toy_key kKeyTypePublic 2))) /\
  Verify (lib := toy) 5%nat [VObject (KeyObject (toy_key kKeyTypePublic 2))]
    = Returned (VBoolean true) /\
  CheckPrivateKey (lib := toy) 5%nat
    [VObject (KeyObject (toy_key kKeyTypePublic 2))] = Aborted.
Proof.
  assert (H : PublicKey (acc := toy_accessors) 5%nat [] =
              Returned (VObject (KeyObject (toy_key kKeyTypePublic 2))))
    by reflexivity.
  split; [exact H |].
  exact (PublicKey_feeds_Verify (acc := toy_accessors) 5%nat 5%nat [] _ H).
Defined.


Lemma relationship_checks_never_throw_witness :
  (IsObject (lib := toy) (arg 0 [VString "key"]) = false /\
   Verify (lib := toy) 5%nat [VString "key"] = Aborted) /\
  (HasInstance (lib := toy) (arg 0 [VArrayBufferView [Byte.x30]]) = false /\
   CheckIssued (lib := toy) 5%nat [VArrayBufferView [Byte.x30]] = Aborted).
Proof.
  destruct (relationship_checks_never_throw (acc := toy_accessors) 5%nat
              [VString "key"]) as (_ & _ & _ & _ & _ & _ & Hobj).
  destruct (relationship_checks_never_throw (acc := toy_accessors) 5%nat
              [VArrayBufferView [Byte.x30]]) as (_ & _ & Habort & _).
  split.
  - split; [reflexivity |]. exact (proj2 (Hobj eq_refl)).
  - split; [reflexivity |]. exact (proj2 Habort eq_refl).
Defined.

(** * Further properties of ownership *)

Section MoreOwnershipFacts.
Context `{acc : Accessors}.

(** The two ways New ends, with what each does to the heaps. *)
Lemma New_outcome (e : Environment) (cert : X509Pointer) (w : World) :
  error_queue (snd (New e cert w)) = error_queue w /\
  ((v8_ok w /\
    fst (New e cert w)
      = Returned {| env := e; shared_cert_ := fresh (dom (managed w)) |} /\
    x509s (snd (New e cert w)) = x509s w /\
    managed (snd (New e cert w))
      = <[fresh (dom (managed w)) := ({| cert_ := cert |}, 1%nat)]>
          (managed w)) \/
   (~ v8_ok w /\
    fst (New e cert w) = Threw PendingException /\
    x509s (snd (New e cert w))
      = match cert with
        | Some a => drop_ref a (x509s w)
        | None => x509s w
        end /\
    managed (snd (New e cert w)) = managed w)).
Proof.
  assert (Hfreshm : managed w !! fresh (dom (managed w)) = None).
  { apply not_elem_of_dom. apply is_fresh. }
  set (p := fresh (dom (managed w))) in *.
  assert (Hrel : forall i : Isolate,
    let w1 := {| x509s := x509s w;
                 managed := <[p := ({| cert_ := cert |}, 1%nat)]> (managed w);
                 error_queue := error_queue w; isolate := i |} in
    x509s (snd (shared_release p w1))
      = match cert with
        | Some a => drop_ref a (x509s w)
        | None => x509s w
        end /\
    managed (snd (shared_release p w1)) = managed w /\
    error_queue (snd (shared_release p w1)) = error_queue w).
  { intros i w1. split; [| split].
    - rewrite shared_release_x509s. subst w1. world_simpl.
      rewrite lookup_insert_eq. reflexivity.
    - rewrite shared_release_managed. subst w1. world_simpl.
      rewrite lookup_insert_eq. apply delete_insert_id. exact Hfreshm.
    - unfold shared_release. subst w1. world_simpl.
      rewrite lookup_insert_eq. destruct cert; reflexivity. }
  destruct (New e cert w) as [r w'] eqn:E; cbn [fst snd].
  cbv [New bind shared_new New_shared v8_call ret set_managed] in E.
  world_simpl_in E. fold p in E. unfold v8_ok.
  destruct (GetFunction (isolate w)) as [[] i1]; world_simpl_in E;
    cbn [fst snd].
  - destruct (NewInstance i1) as [[] i2] eqn:En; world_simpl_in E;
      cbn [fst snd].
    + injection E as <- <-. split; [reflexivity |]. left. auto.
    + destruct (Hrel i2) as (Hx & Hm & Hq).
      destruct (shared_release _ _) as [u w2]. injection E as <- <-.
      cbn [snd] in *. split; [exact Hq |]. right.
      split; [intros [_ H]; cbn in H; discriminate | auto].
  - destruct (Hrel i1) as (Hx & Hm & Hq).
    destruct (shared_release _ _) as [u w2]. injection E as <- <-.
    cbn [snd] in *. split; [exact Hq |]. right.
    split; [intros [H _]; cbn in H; discriminate | auto].
Qed.

(** X5.  New takes over the pointer it is given.  When v8 builds the
    object, the object reaches that pointer through a new ManagedX509 with
    one owner, and no reference count moves; when v8 fails, the exception
    is left pending, the ManagedX509 is gone again and the reference that
    came with the pointer is dropped.  The error queue is left alone
    either way. *)
Theorem New_takes_the_pointer (e : Environment) (cert : X509Pointer)
    (w : World) :
  (v8_ok w ->
   exists h, fst (New e cert w) = Returned h /\
             env h = e /\
             get h (snd (New e cert w)) = cert /\
             managed w !! shared_cert_ h = None /\
             managed (snd (New e cert w)) !! shared_cert_ h
               = Some ({| cert_ := cert |}, 1%nat) /\
             x509s (snd (New e cert w)) = x509s w) /\
  (~ v8_ok w ->
   fst (New e cert w) = Threw PendingException /\
   managed (snd (New e cert w)) = managed w /\
   x509s (snd (New e cert w))
     = match cert with
       | Some a => drop_ref a (x509s w)
       | None => x509s w
       end) /\
  error_queue (snd (New e cert w)) = error_queue w.
Proof.
  destruct (New_outcome e cert w)
    as (Hq & [(Hok & Hr & Hx & Hm) | (Hno & Hr & Hx & Hm)]).
  - split; [| split; [intros H; contradiction | exact Hq]].
    intros _. eexists. split; [exact Hr |]. cbn [env shared_cert_].
    unfold get. cbn [shared_cert_]. rewrite Hm, lookup_insert_eq.
    repeat split; auto.
    apply not_elem_of_dom. apply is_fresh.
  - split; [intros H; contradiction |].
    split; [| exact Hq]. intros _. auto.
Qed.

(** A computation followed by an operation on the error queue. *)
Lemma queue_after_run {A} (f : list (Z * bool) -> list (Z * bool))
    (m : M A) (w : World) :
  (r <- m ;; set_error_queue f ;; ret r) w
  = (fst (m w), snd (set_error_queue f (snd (m w)))).
Proof. unfold bind, ret. destruct (m w) as [r w1]. reflexivity. Qed.

(** Reading an error touches neither heap. *)
Lemma ERR_get_error_heaps (w : World) :
  x509s (snd (ERR_get_error w)) = x509s w /\
  managed (snd (ERR_get_error w)) = managed w.
Proof.
  unfold ERR_get_error.
  destruct (error_queue w) as [|[err b] q]; split; reflexivity.
Qed.

(** The rules of [decodes]: an outcome that is no object, an operation on
    the error queue before or after, reading an error, and wrapping a
    certificate just decoded. *)
Lemma dec_ret (e : Environment) (r : Result X509Certificate) :
  (forall h, r <> Returned h) -> decodes e (ret r).
Proof. intros Hr w0 w Hx Hm. right. cbn. auto. Qed.

Lemma dec_queue (e : Environment) (f : list (Z * bool) -> list (Z * bool))
    (m : M (Result X509Certificate)) :
  decodes e m -> decodes e (set_error_queue f ;; m).
Proof. intros H w0 w Hx Hm. apply H; assumption. Qed.

Lemma dec_queue_after (e : Environment)
    (f : list (Z * bool) -> list (Z * bool))
    (m : M (Result X509Certificate)) :
  decodes e m -> decodes e (r <- m ;; set_error_queue f ;; ret r).
Proof.
  intros H w0 w Hx Hm. rewrite queue_after_run.
  pose proof (H w0 w Hx Hm) as Hd.
  unfold decode_outcome in *. exact Hd.
Qed.

Lemma dec_get_error (e : Environment) (k : Z -> M (Result X509Certificate)) :
  (forall err, decodes e (k err)) ->
  decodes e (err <- ERR_get_error ;; k err).
Proof.
  intros Hk w0 w Hx Hm.
  rewrite (bind_run _ _ w _ _ (surjective_pairing (ERR_get_error w))).
  destruct (ERR_get_error_heaps w) as [Hx' Hm'].
  apply Hk; congruence.
Qed.

Lemma dec_alloc_New (e : Environment) (c : X509) :
  decodes e (a <- X509_alloc c ;; New e (Some a)).
Proof.
  intros w0 w Hx Hm.
  assert (Hfresh : x509s w0 !! fresh (dom (x509s w0)) = None).
  { apply not_elem_of_dom. apply is_fresh. }
  unfold bind, X509_alloc. cbn [set_x509s snd]. rewrite Hx.
  set (a := fresh (dom (x509s w0))) in *.
  match goal with |- context [New e (Some a) ?W] => set (w1 := W) end.
  destruct (New_outcome e (Some a) w1)
    as (_ & [(_ & Hr & Hx1 & Hm1) | (_ & Hr & Hx1 & Hm1)]);
    rewrite Hr; unfold decode_outcome.
  - left. exists c. subst w1. cbn [managed x509s] in *.
    rewrite Hm in *. rewrite Hx1, Hm1. auto.
  - right. subst w1. cbn [managed x509s] in *.
    split; [intros h; discriminate |].
    rewrite Hx1, Hm1. split; [| exact Hm].
    unfold drop_ref. rewrite lookup_insert_eq.
    apply delete_insert_id. exact Hfresh.
Qed.

(** Parse is a decoding in that sense. *)
Lemma Parse_decodes (e : Environment) (args : list Value) :
  decodes e (Parse e args).
Proof.
  unfold Parse.
  destruct (arg 0 args) as [| | | |data|];
    try (apply dec_ret; intros h; discriminate).
  cbv zeta. unfold ClearErrorOnReturn, ERR_clear_error.
  apply dec_queue_after.
  destruct (LoadBIO data) as [[bio|] es0]; unfold raise at 1; apply dec_queue.
  - destruct (PEM_read_bio_X509_AUX bio) as [[[c|] es1] rest];
      unfold raise at 1; apply dec_queue.
    + apply dec_alloc_New.
    + unfold MarkPopErrorOnReturn, ERR_set_mark, ERR_pop_to_mark.
      apply dec_queue, dec_queue_after.
      destruct (d2i_X509 _) as [[c|] es2]; unfold raise at 1; apply dec_queue.
      * apply dec_alloc_New.
      * apply dec_get_error. intros err. apply dec_ret.
        intros h; discriminate.
  - apply dec_get_error. intros err. apply dec_ret. intros h; discriminate.
Qed.

(** X6.  Parse changes the heaps only by the certificate it returns.  When
    it returns an object, exactly one X509 was created, with one reference,
    held by one new ManagedX509 with one owner, which the object holds;
    when it throws or aborts, also because v8 could not build the object
    for a certificate already decoded, both heaps are exactly as they
    were: nothing is left behind. *)
Theorem Parse_leaves_one_certificate_or_nothing (e : Environment)
    (args : list Value) (w : World) :
  (forall h, fst (Parse e args w) = Returned h ->
     env h = e /\
     managed w !! shared_cert_ h = None /\
     exists (a : addr) (c : X509),
       x509s w !! a = None /\
       x509s (snd (Parse e args w)) = <[a := (c, 1%nat)]> (x509s w) /\
       managed (snd (Parse e args w))
         = <[shared_cert_ h := ({| cert_ := Some a |}, 1%nat)]> (managed w) /\
       decoded h (snd (Parse e args w)) = Some c) /\
  ((forall h, fst (Parse e args w) <> Returned h) ->
   x509s (snd (Parse e args w)) = x509s w /\
   managed (snd (Parse e args w)) = managed w).
Proof.
  destruct (Parse_decodes e args w w eq_refl eq_refl)
    as [(c & Hr & Hx & Hm) | (Hr & Hx & Hm)].
  - split.
    + intros h Hh. rewrite Hr in Hh. injection Hh as <-.
      cbn [env shared_cert_].
      split; [reflexivity |].
      split; [apply not_elem_of_dom, is_fresh |].
      exists (fresh (dom (x509s w))), c.
      split; [apply not_elem_of_dom, is_fresh |].
      split; [exact Hx |]. split; [exact Hm |].
      unfold decoded, get. cbn [shared_cert_].
      rewrite Hm, lookup_insert_eq. cbn [cert_].
      rewrite Hx, lookup_insert_eq. reflexivity.
    + intros Hno. exfalso. eapply Hno. exact Hr.
  - split; [| auto].
    intros h Hh. exfalso. eapply Hr. exact Hh.
Qed.



(** X8.  GetCert wraps the certificate the session lends without taking
    a reference to it.  With no certificate it returns nothing and changes
    nothing.  With one, and v8 able to build the object, the object holds
    the session's own X509 while every reference count is as before, so
    that the destruction of the object takes one reference away from the
    session's certificate; when v8 fails, that reference is taken away at
    once.  The error queue is empty afterwards in every case. *)
Theorem GetCert_wraps_without_a_reference (e : Environment) (ssl : SSL)
    (w : World) :
  (SSL_get_certificate ssl = None ->
   fst (GetCert e ssl w) = Returned None /\
   x509s (snd (GetCert e ssl w)) = x509s w /\
   managed (snd (GetCert e ssl w)) = managed w) /\
  (forall a : addr,
     SSL_get_certificate ssl = Some a -> v8_ok w ->
     exists h : X509Certificate,
       fst (GetCert e ssl w) = Returned (Some h) /\
       get h (snd (GetCert e ssl w)) = Some a /\
       x509s (snd (GetCert e ssl w)) = x509s w /\
       x509s (run (OpRelease (shared_cert_ h)) (snd (GetCert e ssl w)))
         = drop_ref a (x509s w)) /\
  (forall a : addr,
     SSL_get_certificate ssl = Some a -> ~ v8_ok w ->
     fst (GetCert e ssl w) = Threw PendingException /\
     x509s (snd (GetCert e ssl w)) = drop_ref a (x509s w) /\
     managed (snd (GetCert e ssl w)) = managed w) /\
  error_queue (snd (GetCert e ssl w)) = [].
Proof.
  unfold GetCert. rewrite ClearErrorOnReturn_run. cbn [fst snd].
  change (x509s (snd (ERR_clear_error ?W))) with (x509s W).
  change (managed (snd (ERR_clear_error ?W))) with (managed W).
  split; [| split; [| split; [| reflexivity]]].
  - intros ->. cbn. auto.
  - intros a -> Hv8.
    rewrite (bind_run _ _ _ _ _ (surjective_pairing (New e (Some a) w))).
    destruct (New_outcome e (Some a) w)
      as (_ & [(_ & Hr & Hx & Hm) | (Hno & _)]); [| contradiction].
    rewrite Hr. cbn [ret fst snd]. eexists. split; [reflexivity |].
    unfold get. cbn [shared_cert_ run].
    change (managed (snd (ERR_clear_error ?W))) with (managed W).
    rewrite Hm, lookup_insert_eq. cbn [cert_].
    split; [reflexivity |]. split; [exact Hx |].
    rewrite shared_release_x509s.
    change (managed (snd (ERR_clear_error ?W))) with (managed W).
    change (x509s (snd (ERR_clear_error ?W))) with (x509s W).
    rewrite Hm, lookup_insert_eq, Hx. reflexivity.
  - intros a -> Hv8.
    rewrite (bind_run _ _ _ _ _ (surjective_pairing (New e (Some a) w))).
    destruct (New_outcome e (Some a) w)
      as (_ & [(Hok & _) | (_ & Hr & Hx & Hm)]); [contradiction |].
    rewrite Hr. cbn [ret fst snd]. auto.
Qed.

(** ** What a successful GetPeerCert created *)

Lemma size_add_ref (a : addr) (h : gmap addr (X509 * nat)) :
  size (add_ref a h) = size h.
Proof.
  unfold add_ref. rewrite <- !(size_dom (D := gset addr)).
  rewrite dom_alter_L. reflexivity.
Qed.

Lemma fresh_insert_subseteq {V} (v : V) (h : gmap addr V) :
  h ⊆ <[fresh (dom h) := v]> h.
Proof. apply insert_subseteq, not_elem_of_dom, is_fresh. Qed.

Lemma fresh_insert_size {V} (v : V) (h : gmap addr V) :
  size (<[fresh (dom h) := v]> h) = S (size h).
Proof. apply map_size_insert_None, not_elem_of_dom, is_fresh. Qed.

(** The heaps after the peer certificate was asked for. *)
Lemma peer_certificate_heaps (ssl : SSL) (b : bool) (w : World) :
  let w1 := snd ((if b then SSL_get_peer_certificate ssl else ret None) w) in
  x509s w1 = match (if b then peer_certificate ssl else None) with
             | Some p => add_ref p (x509s w)
             | None => x509s w
             end /\
  managed w1 = managed w.
Proof.
  destruct b; cbn; [| auto].
  unfold SSL_get_peer_certificate.
  destruct (peer_certificate ssl); cbn; auto.
Qed.

(** A loop that ran to its end made one certificate and one object per
    iteration and touched nothing else. *)
Lemma GetPeerCert_loop_success (e : Environment) (sk : option (list addr))
    (fuel : nat) :
  forall (i : nat) (certs certs' : list X509Certificate) (w : World),
    fst (GetPeerCert_loop e sk fuel i certs w) = Returned (Some certs') ->
    length certs' = (length certs + fuel)%nat /\
    x509s w ⊆ x509s (snd (GetPeerCert_loop e sk fuel i certs w)) /\
    managed w ⊆ managed (snd (GetPeerCert_loop e sk fuel i certs w)) /\
    size (x509s (snd (GetPeerCert_loop e sk fuel i certs w)))
      = (size (x509s w) + fuel)%nat /\
    size (managed (snd (GetPeerCert_loop e sk fuel i certs w)))
      = (size (managed w) + fuel)%nat.
Proof.
  induction fuel as [|fuel IH]; intros i certs certs' w H.
  - cbn in H |- *. injection H as <-.
    repeat split; try reflexivity; lia.
  - cbn [GetPeerCert_loop] in H |- *.
    destruct (X509_dup_ptr_cases (sk_X509_value sk i) w) as [Hd | [c Hd]].
    + rewrite (bind_run _ _ _ _ _ Hd) in H. cbn in H. discriminate.
    + rewrite (bind_run _ _ _ _ _ Hd) in H. rewrite (bind_run _ _ _ _ _ Hd).
      remember (snd (set_x509s
                  (fun h => <[fresh (dom (x509s w)) := (c, 1%nat)]> h) w))
        as w1 eqn:Hw1.
      assert (Hx1 : x509s w1
                    = <[fresh (dom (x509s w)) := (c, 1%nat)]> (x509s w))
        by (subst w1; reflexivity).
      assert (Hm1 : managed w1 = managed w) by (subst w1; reflexivity).
      clear Hw1 Hd. cbv beta iota in H |- *.
      rewrite (bind_run _ _ _ _ _
                 (surjective_pairing
                    (New e (Some (fresh (dom (x509s w)))) w1))) in H.
      rewrite (bind_run _ _ _ _ _
                 (surjective_pairing
                    (New e (Some (fresh (dom (x509s w)))) w1))).
      destruct (New_outcome e (Some (fresh (dom (x509s w)))) w1)
        as (_ & [(_ & Hr & Hx & Hm) | (_ & Hr & _)]);
        rewrite Hr in H; [| cbn in H; discriminate].
      rewrite Hr.
      remember (snd (New e (Some (fresh (dom (x509s w)))) w1)) as w2 eqn:Hw2.
      clear Hw2.
      rewrite Hm1 in *.
      destruct (IH _ _ _ _ H) as (Hl & Hxs & Hms & Hsx & Hsm).
      rewrite Hx, Hx1 in Hxs, Hsx. rewrite Hm in Hms, Hsm.
      rewrite fresh_insert_size in Hsx. rewrite fresh_insert_size in Hsm.
      rewrite length_app in Hl. cbn [length] in Hl.
      split; [lia |]. split.
      { etransitivity; [apply fresh_insert_subseteq | exact Hxs]. }
      split.
      { etransitivity; [apply fresh_insert_subseteq | exact Hms]. }
      split; lia.
Qed.

(** X9.  When GetPeerCert returns certificates, it returns one in the
    abbreviated form and one more than the session's chain has entries
    otherwise, in either role.  The certificates that existed before are
    all still there with their content and their reference counts, but for
    the one reference SSL_get_peer_certificate took on the peer
    certificate of a server-side call; one X509 object was created for
    every returned certificate after the first, and one ManagedX509 for
    every returned certificate. *)
Theorem GetPeerCert_counts (e : Environment) (ssl : SSL) (flag : Z)
    (w : World) (certs : list X509Certificate) :
  fst (GetPeerCert e ssl flag w) = Returned (Some certs) ->
  length certs = (if abbreviated_flag flag then 1
                  else S (length (chain_entries ssl)))%nat /\
  match (if is_server_flag flag then peer_certificate ssl else None) with
  | Some p => add_ref p (x509s w)
  | None => x509s w
  end ⊆ x509s (snd (GetPeerCert e ssl flag w)) /\
  managed w ⊆ managed (snd (GetPeerCert e ssl flag w)) /\
  size (x509s (snd (GetPeerCert e ssl flag w)))
    = (size (x509s w) + (length certs - 1))%nat /\
  size (managed (snd (GetPeerCert e ssl flag w)))
    = (size (managed w) + length certs)%nat.
Proof.
  pose proof (GetPeerCert_unfold e ssl flag w) as HU. cbv zeta in HU.
  rewrite HU. clear HU. cbn [fst snd].
  change (x509s (snd (ERR_clear_error ?W))) with (x509s W).
  change (managed (snd (ERR_clear_error ?W))) with (managed W).
  destruct (peer_certificate_heaps ssl (is_server_flag flag) w) as [Hx1 Hm1].
  remember (snd ((if is_server_flag flag then SSL_get_peer_certificate ssl
                  else ret None) w)) as w1 eqn:Hw1.
  clear Hw1.
  assert (Hs1 : size (x509s w1) = size (x509s w)).
  { rewrite Hx1.
    destruct (if is_server_flag flag then peer_certificate ssl else None);
      [apply size_add_ref | reflexivity]. }
  rewrite <- Hx1. clear Hx1.
  destruct (leading (is_server_flag flag) ssl) as [a |];
    [| cbn; discriminate].
  rewrite (bind_run _ _ _ _ _ (surjective_pairing (New e (Some a) w1))).
  destruct (New_outcome e (Some a) w1)
    as (_ & [(_ & Hr & Hx & Hm) | (_ & Hr & _)]);
    rewrite Hr; [| cbn; discriminate].
  remember (snd (New e (Some a) w1)) as w2 eqn:Hw2. clear Hw2.
  assert (Hs2 : size (managed w2) = S (size (managed w))).
  { rewrite Hm, Hm1. apply fresh_insert_size. }
  assert (Hi2 : managed w ⊆ managed w2).
  { rewrite Hm, Hm1. apply fresh_insert_subseteq. }
  destruct (abbreviated_flag flag).
  - cbn. intros H. injection H as <-. cbn [length].
    rewrite Hx, Hs1, Hs2.
    split; [reflexivity |]. split; [reflexivity |].
    split; [exact Hi2 |]. split; lia.
  - intros H.
    destruct (GetPeerCert_loop_success _ _ _ _ _ _ _ H)
      as (Hl & Hxs & Hms & Hsx & Hsm).
    cbn [length] in Hl. rewrite Hx in Hxs, Hsx.
    split; [lia |]. split; [exact Hxs |].
    split; [etransitivity; [exact Hi2 | exact Hms] |].
    split; [rewrite Hsx, Hs1; lia | rewrite Hsm, Hs2; lia].
Qed.

End MoreOwnershipFacts.

Lemma GetCert_wraps_without_a_reference_witness :
  SSL_get_certificate (Accessors := toy_accessors) client_session
    = Some 2%positive /\
  v8_ok toy_world /\
  exists h : X509Certificate,
    fst (GetCert (acc := toy_accessors) toy_env client_session toy_world)
      = Returned (Some h) /\
    get h (snd (GetCert (acc := toy_accessors) toy_env client_session
                  toy_world)) = Some 2%positive /\
    x509s (snd (GetCert (acc := toy_accessors) toy_env client_session
                  toy_world)) = x509s toy_world /\
    x509s (run (OpRelease (shared_cert_ h))
             (snd (GetCert (acc := toy_accessors) toy_env client_session
                     toy_world)))
      = drop_ref 2%positive (x509s toy_world).
Proof.
  assert (Hv8 : v8_ok toy_world) by (split; reflexivity).
  split; [reflexivity |]. split; [exact Hv8 |].
  exact (proj1 (proj2 (GetCert_wraps_without_a_reference
                         (acc := toy_accessors) toy_env client_session
                         toy_world)) 2%positive eq_refl Hv8).
Defined.


Lemma GetPeerCert_counts_witness :
  fst (GetPeerCert (lib := toy) toy_env client_session 0 toy_world)
    = Returned (Some [{| env := toy_env; shared_cert_ := 1%positive |};
                      {| env := toy_env; shared_cert_ := 2%positive |};
                      {| env := toy_env; shared_cert_ := 3%positive |}]) /\
  length [{| env := toy_env; shared_cert_ := 1%positive |};
          {| env := toy_env; shared_cert_ := 2%positive |};
          {| env := toy_env; shared_cert_ := 3%positive |}] = 3%nat /\
  x509s toy_world
    ⊆ x509s (snd (GetPeerCert (lib := toy) toy_env client_session 0
                    toy_world)) /\
  size (x509s (snd (GetPeerCert (lib := toy) toy_env client_session 0
                      toy_world)))
    = (size (x509s toy_world) + 2)%nat.
Proof.
  assert (H : fst (GetPeerCert (lib := toy) toy_env client_session 0
                     toy_world)
              = Returned
                  (Some [{| env := toy_env; shared_cert_ := 1%positive |};
                         {| env := toy_env; shared_cert_ := 2%positive |};
                         {| env := toy_env; shared_cert_ := 3%positive |}]))
    by (vm_compute; reflexivity).
  split; [exact H |].
  destruct (GetPeerCert_counts (lib := toy) toy_env client_session 0
              toy_world _ H) as (Hl & Hx & _ & Hs & _).
  split; [exact Hl |]. split; [exact Hx | exact Hs].
Defined.

(** * Further properties of the transfer and of collection *)

Section MoreTransferFacts.
Context `{lib : Collaborators}.

Lemma same_heaps_refl (w : World) : same_heaps w w.
Proof. split; reflexivity. Qed.

Lemma same_heaps_sym (w1 w2 : World) : same_heaps w1 w2 -> same_heaps w2 w1.
Proof. intros [H1 H2]. split; congruence. Qed.

Lemma same_heaps_trans (w1 w2 w3 : World) :
  same_heaps w1 w2 -> same_heaps w2 w3 -> same_heaps w1 w3.
Proof. intros [H1 H2] [H3 H4]. split; congruence. Qed.

(** What the release of an owner does to the heaps depends on the heaps
    only. *)
Lemma shared_release_same (p : addr) (w1 w2 : World) :
  same_heaps w1 w2 ->
  same_heaps (snd (shared_release p w1)) (snd (shared_release p w2)).
Proof.
  intros [Hx Hm]. split.
  - rewrite !shared_release_x509s, Hx, Hm. reflexivity.
  - rewrite !shared_release_managed, Hm. reflexivity.
Qed.

Lemma shared_copy_heaps (p : addr) (w : World) :
  x509s (snd (shared_copy p w)) = x509s w /\
  managed (snd (shared_copy p w))
    = alter (fun o => (fst o, S (snd o))) p (managed w).
Proof. split; reflexivity. Qed.

(** A copy that is released again leaves the heaps as they were. *)
Lemma copy_release (p : addr) (w : World) :
  (forall m, managed w !! p <> Some (m, 0%nat)) ->
  same_heaps (snd (shared_release p (snd (shared_copy p w)))) w.
Proof.
  intros Hk. destruct (shared_copy_heaps p w) as [Hx Hm].
  split.
  - rewrite shared_release_x509s, Hm, Hx, lookup_alter_eq.
    destruct (managed w !! p) as [[m k] |] eqn:E; cbn; [| reflexivity].
    destruct k as [| k]; [destruct (Hk m); reflexivity | reflexivity].
  - rewrite shared_release_managed, Hm, lookup_alter_eq.
    destruct (managed w !! p) as [[m k] |] eqn:E; cbn.
    + destruct k as [| k]; [destruct (Hk m); reflexivity |].
      rewrite (alter_count p m (S k) _ E), insert_insert_eq.
      apply insert_id. exact E.
    + apply map_eq. intros i. destruct (decide (p = i)) as [<- | Hne].
      * rewrite lookup_alter_eq, E. reflexivity.
      * rewrite lookup_alter_ne by exact Hne. reflexivity.
Qed.

(** A copy that is released twice: as one release. *)
Lemma copy_release_release (p : addr) (w : World) :
  same_heaps
    (snd (shared_release p (snd (shared_release p (snd (shared_copy p w))))))
    (snd (shared_release p w)).
Proof.
  destruct (managed w !! p) as [[m k] |] eqn:E.
  - destruct k as [| k].
    + destruct (shared_copy_heaps p w) as [Hx Hm].
      rewrite (alter_count p m 0 _ E) in Hm.
      assert (H1 : same_heaps (snd (shared_release p (snd (shared_copy p w))))
                              (snd (shared_release p w))).
      { split.
        - rewrite !shared_release_x509s, Hm, Hx, lookup_insert_eq, E.
          reflexivity.
        - rewrite !shared_release_managed, Hm, lookup_insert_eq, E.
          apply map_eq. intros i. destruct (decide (p = i)) as [<- | Hne].
          + rewrite !lookup_delete_eq. reflexivity.
          + rewrite !lookup_delete_ne, lookup_insert_ne by exact Hne.
            reflexivity. }
      assert (H2 : managed (snd (shared_release p w)) !! p = None).
      { rewrite shared_release_managed, E. apply lookup_delete_eq. }
      destruct H1 as [H1x H1m].
      split.
      * rewrite shared_release_x509s, H1m, H2. exact H1x.
      * rewrite shared_release_managed, H1m, H2. reflexivity.
    + apply shared_release_same, copy_release.
      intros m' Hm'. congruence.
  - apply shared_release_same, copy_release.
    intros m' Hm'. congruence.
Qed.

(** The two ways Deserialize ends: an object on the ManagedX509 of the
    package, with the heaps of a copy released again; no object, with the
    heaps of the package dropped. *)
Lemma Deserialize_outcome (this : X509CertificateTransferData)
    (e : Environment) (ctx : nat) (w : World) :
  (ctx = context e /\
   fst (Deserialize this e ctx w)
     = Returned {| env := e; shared_cert_ := data_ this |} /\
   same_heaps (snd (Deserialize this e ctx w))
     (snd (shared_release (data_ this) (snd (shared_copy (data_ this) w))))) \/
  ((exists err, fst (Deserialize this e ctx w) = Threw err) /\
   same_heaps (snd (Deserialize this e ctx w))
     (snd (shared_release (data_ this) w))).
Proof.
  rewrite Deserialize_run. cbv zeta.
  destruct (Nat.eqb_spec ctx (context e)) as [Heq | Hne]; cbn [negb].
  - rewrite (bind_run _ _ _ _ _
               (surjective_pairing (shared_copy (data_ this) w))).
    cbn [fst snd].
    destruct (New_shared_cases e (data_ this)
                (snd (shared_copy (data_ this) w)))
      as [(Hr & Hx & Hm) | (Hr & w1 & Hx & Hm & Hs)].
    + left. split; [exact Heq |]. split; [exact Hr |].
      apply shared_release_same. split; assumption.
    + right. split; [eauto |]. rewrite Hs.
      eapply same_heaps_trans; [| apply copy_release_release].
      apply shared_release_same, shared_release_same. split; assumption.
  - right. cbn [ret fst snd]. split; [eauto | apply same_heaps_refl].
Qed.

(** X10.  A certificate sent to another environment: cloning an object
    whose ManagedX509 has an owner and unpacking the package in the
    context of the receiving environment, with v8 able to build the
    object, gives an object of that environment on the same ManagedX509,
    hence on the same certificate; no X509 is touched and the ManagedX509
    has one owner more.  When the sender's object is collected afterwards
    the heaps are exactly as before the transfer and the receiver's object
    still reaches the certificate. *)
Theorem transfer_round_trip (this : X509Certificate) (e : Environment)
    (w : World) (m : ManagedX509) (n : nat) :
  managed w !! shared_cert_ this = Some (m, S n) ->
  v8_ok w ->
  let sent := CloneForMessaging this w in
  let received := Deserialize (fst sent) e (context e) (snd sent) in
  let h := {| env := e; shared_cert_ := shared_cert_ this |} in
  fst received = Returned h /\
  get h (snd received) = get this w /\
  x509s (snd received) = x509s w /\
  managed (snd received)
    = <[shared_cert_ this := (m, S (S n))]> (managed w) /\
  same_heaps (run (OpRelease (shared_cert_ this)) (snd received)) w /\
  get h (run (OpRelease (shared_cert_ this)) (snd received)) = get this w.
Proof.
  intros Hp Hv8 sent received h.
  assert (Hsent : sent = ({| data_ := shared_cert_ this |},
                          snd (shared_copy (shared_cert_ this) w))).
  { unfold sent, CloneForMessaging. apply then_ret. }
  destruct (shared_copy_heaps (shared_cert_ this) w) as [Hx1 Hm1].
  rewrite (alter_count _ _ _ _ Hp) in Hm1.
  remember (snd (shared_copy (shared_cert_ this) w)) as w1 eqn:Hw1.
  assert (Hv1 : v8_ok w1) by (subst w1; exact Hv8).
  clear Hw1.
  assert (Hp1 : managed w1 !! shared_cert_ this = Some (m, S (S n))).
  { rewrite Hm1. apply lookup_insert_eq. }
  assert (Hrec : fst received = Returned h /\ same_heaps (snd received) w1).
  { unfold received. rewrite Hsent. cbn [fst snd].
    destruct (Deserialize_outcome {| data_ := shared_cert_ this |} e
                (context e) w1) as [(_ & Hr & Hs) | ([err Hr] & _)].
    - split; [exact Hr |].
      eapply same_heaps_trans; [exact Hs |].
      apply copy_release. cbn [data_]. intros m'. rewrite Hp1. congruence.
    - exfalso. rewrite Deserialize_run in Hr. cbv zeta in Hr.
      rewrite Nat.eqb_refl in Hr. cbn [negb fst data_] in Hr.
      rewrite (bind_run _ _ _ _ _
                 (surjective_pairing (shared_copy (shared_cert_ this) w1)))
        in Hr.
      rewrite (New_shared_ok e (shared_cert_ this)
                 (snd (shared_copy (shared_cert_ this) w1)) Hv1) in Hr.
      discriminate. }
  destruct Hrec as [Hr [Hx2 Hm2]].
  remember (snd received) as w2 eqn:Hw2. clear Hw2.
  assert (Hget : forall w', managed w' = managed w -> get h w' = get this w).
  { intros w' Hw'. unfold get, h. cbn [shared_cert_]. rewrite Hw'.
    reflexivity. }
  assert (Hrel : same_heaps (run (OpRelease (shared_cert_ this)) w2) w).
  { cbn [run]. split.
    - rewrite shared_release_x509s, Hm2, Hp1. congruence.
    - rewrite shared_release_managed, Hm2, Hp1, Hm1, insert_insert_eq.
      apply insert_id. exact Hp. }
  split; [exact Hr |]. split.
  { unfold get, h. cbn [shared_cert_]. rewrite Hm2, Hp1, Hp. reflexivity. }
  split; [congruence |]. split; [congruence |].
  split; [exact Hrel |]. apply Hget. exact (proj2 Hrel).
Qed.

(** X11.  A package that cannot be unpacked is consumed all the same:
    whenever Deserialize returns no object it has thrown, and the heaps
    are those left by dropping the package.  So when the package was the
    last owner of its ManagedX509, the ManagedX509 is gone and its
    certificate has lost a reference. *)
Theorem Deserialize_failure_consumes_package
    (this : X509CertificateTransferData) (e : Environment) (ctx : nat)
    (w : World) :
  (forall h, fst (Deserialize this e ctx w) <> Returned h) ->
  (exists err, fst (Deserialize this e ctx w) = Threw err) /\
  same_heaps (snd (Deserialize this e ctx w))
             (run (OpRelease (data_ this)) w) /\
  (forall (m : ManagedX509) (a : addr),
     managed w !! data_ this = Some (m, 1%nat) ->
     cert_ m = Some a ->
     x509s (snd (Deserialize this e ctx w)) = drop_ref a (x509s w) /\
     managed (snd (Deserialize this e ctx w)) !! data_ this = None).
Proof.
  intros Hno.
  destruct (Deserialize_outcome this e ctx w)
    as [(_ & Hr & _) | (Herr & Hx & Hm)]; [destruct (Hno _ Hr) |].
  split; [exact Herr |]. split; [split; assumption |].
  intros m a Hp Ha. split.
  - rewrite Hx, shared_release_x509s, Hp, Ha. reflexivity.
  - rewrite Hm, shared_release_managed, Hp. apply lookup_delete_eq.
Qed.

(** X12.  Decoding a certificate and collecting the object leaks nothing:
    when Parse returns an object, the destruction of that object leaves
    the certificates and the ManagedX509s exactly as they were before the
    call. *)
Theorem Parse_then_release_restores (e : Environment) (args : list Value)
    (w : World) (h : X509Certificate) :
  fst (Parse e args w) = Returned h ->
  same_heaps (run (OpRelease (shared_cert_ h)) (snd (Parse e args w))) w.
Proof.
  intros Hr.
  destruct (Parse_decodes e args w w eq_refl eq_refl)
    as [(c & Hr' & Hx & Hm) | (Hno & _)]; [| destruct (Hno _ Hr)].
  rewrite Hr in Hr'. injection Hr' as ->. cbn [shared_cert_ run].
  split.
  - rewrite shared_release_x509s, Hm, lookup_insert_eq. cbn [cert_].
    rewrite Hx. unfold drop_ref. rewrite lookup_insert_eq.
    apply delete_insert_id, not_elem_of_dom, is_fresh.
  - rewrite shared_release_managed, Hm, lookup_insert_eq.
    apply delete_insert_id, not_elem_of_dom, is_fresh.
Qed.

(** ** The ownership invariant *)

Lemma well_owned_same (w1 w2 : World) :
  same_heaps w1 w2 -> well_owned w2 -> well_owned w1.
Proof.
  intros [Hx Hm] [H1 H2]. unfold well_owned. rewrite Hx, Hm.
  split; assumption.
Qed.

(** One ManagedX509 with another number of owners, not zero. *)
Lemma well_owned_recount (p : addr) (m : ManagedX509) (k k' : nat)
    (w w' : World) :
  managed w !! p = Some (m, k) ->
  (1 <= k')%nat ->
  x509s w' = x509s w ->
  managed w' = <[p := (m, k')]> (managed w) ->
  well_owned w -> well_owned w'.
Proof.
  intros E Hk Hx Hm [H1 H2].
  assert (Hold : forall q mq kq,
            managed w' !! q = Some (mq, kq) ->
            exists kq', managed w !! q = Some (mq, kq')).
  { intros q mq kq Hq. rewrite Hm in Hq.
    apply lookup_insert_Some in Hq as [[<- Heq] | [_ Hq]];
      [injection Heq as <- <- |]; eauto. }
  split.
  - intros q mq kq Hq. rewrite Hx. rewrite Hm in Hq.
    apply lookup_insert_Some in Hq as [[<- Heq] | [_ Hq]].
    + injection Heq as <- <-. split; [exact Hk |].
      exact (proj2 (H1 _ _ _ E)).
    + exact (H1 _ _ _ Hq).
  - intros p1 p2 a m1 m2 k1 k2 Hp1 Hp2 Ha1 Ha2.
    destruct (Hold _ _ _ Hp1) as [k1' Hp1'].
    destruct (Hold _ _ _ Hp2) as [k2' Hp2'].
    exact (H2 _ _ _ _ _ _ _ Hp1' Hp2' Ha1 Ha2).
Qed.

Lemma well_owned_copy (p : addr) (w : World) :
  well_owned w -> well_owned (snd (shared_copy p w)).
Proof.
  intros Hw. destruct (shared_copy_heaps p w) as [Hx Hm].
  destruct (managed w !! p) as [[m k] |] eqn:E.
  - rewrite (alter_count _ _ _ _ E) in Hm.
    apply (well_owned_recount p m k (S k) w); [exact E | lia | | | exact Hw];
      assumption.
  - apply (well_owned_same _ w); [| exact Hw].
    split; [exact Hx |]. rewrite Hm.
    apply map_eq. intros i. destruct (decide (p = i)) as [<- | Hne].
    + rewrite lookup_alter_eq, E. reflexivity.
    + rewrite lookup_alter_ne by exact Hne. reflexivity.
Qed.

Lemma well_owned_release (p : addr) (w : World) :
  well_owned w -> well_owned (snd (shared_release p w)).
Proof.
  intros Hw.
  pose proof (shared_release_x509s p w) as Hx.
  pose proof (shared_release_managed p w) as Hm.
  destruct (managed w !! p) as [[m k] |] eqn:E;
    [| apply (well_owned_same _ w); [split; assumption | exact Hw]].
  destruct k as [| [| k]];
    [| | apply (well_owned_recount p m (S (S k)) (S k) w); auto; lia].
  - destruct Hw as [H1 _]. destruct (H1 _ _ _ E) as [Hk _]. lia.
  - destruct Hw as [H1 H2]. split.
    + intros q mq kq Hq. rewrite Hm in Hq.
      apply lookup_delete_Some in Hq as [Hne Hq].
      destruct (H1 _ _ _ Hq) as [Hk Hlive]. split; [exact Hk |].
      intros a Ha. destruct (Hlive a Ha) as (c & n & Hc).
      exists c, n. rewrite Hx.
      destruct (cert_ m) as [a0 |] eqn:Ea; [| exact Hc].
      rewrite lookup_drop_ref.
      destruct (decide (a0 = a)) as [-> | _]; [| exact Hc].
      destruct Hne. exact (H2 _ _ _ _ _ _ _ E Hq Ea Ha).
    + intros p1 p2 a m1 m2 k1 k2 Hp1 Hp2 Ha1 Ha2. rewrite Hm in Hp1, Hp2.
      apply lookup_delete_Some in Hp1 as [_ Hp1].
      apply lookup_delete_Some in Hp2 as [_ Hp2].
      exact (H2 _ _ _ _ _ _ _ Hp1 Hp2 Ha1 Ha2).
Qed.

Lemma well_owned_decode (e : Environment) (w w' : World)
    (r : Result X509Certificate) :
  decode_outcome e w r w' -> well_owned w -> well_owned w'.
Proof.
  intros [(c & _ & Hx & Hm) | (_ & Hx & Hm)] Hw;
    [| apply (well_owned_same _ w); [split; assumption | exact Hw]].
  destruct Hw as [H1 H2].
  assert (Hfx : x509s w !! fresh (dom (x509s w)) = None)
    by apply not_elem_of_dom, is_fresh.
  assert (Hnew : forall q mq kq a,
            managed w !! q = Some (mq, kq) -> cert_ mq = Some a ->
            a <> fresh (dom (x509s w))).
  { intros q mq kq a Hq Ha ->.
    destruct (proj2 (H1 _ _ _ Hq) _ Ha) as (c0 & n0 & Hc). congruence. }
  split.
  - intros q mq kq Hq. rewrite Hx. rewrite Hm in Hq.
    apply lookup_insert_Some in Hq as [[<- Heq] | [_ Hq]].
    + injection Heq as <- <-. split; [lia |].
      intros a Ha. cbn [cert_] in Ha. injection Ha as <-.
      exists c, 0%nat. apply lookup_insert_eq.
    + destruct (H1 _ _ _ Hq) as [Hk Hlive]. split; [exact Hk |].
      intros a Ha. destruct (Hlive a Ha) as (c0 & n0 & Hc).
      exists c0, n0. rewrite lookup_insert_ne; [exact Hc |].
      intros Heq. exact (Hnew _ _ _ _ Hq Ha (eq_sym Heq)).
  - intros p1 p2 a m1 m2 k1 k2 Hp1 Hp2 Ha1 Ha2. rewrite Hm in Hp1, Hp2.
    apply lookup_insert_Some in Hp1 as [[<- Heq1] | [_ Hp1]];
      apply lookup_insert_Some in Hp2 as [[<- Heq2] | [_ Hp2]].
    + reflexivity.
    + injection Heq1 as <- <-. cbn [cert_] in Ha1. injection Ha1 as <-.
      destruct (Hnew _ _ _ _ Hp2 Ha2 eq_refl).
    + injection Heq2 as <- <-. cbn [cert_] in Ha2. injection Ha2 as <-.
      destruct (Hnew _ _ _ _ Hp1 Ha1 eq_refl).
    + exact (H2 _ _ _ _ _ _ _ Hp1 Hp2 Ha1 Ha2).
Qed.

(** X13.  The decoder, the transfer and the collection of an object keep
    the ownership invariant: when every ManagedX509 has an owner and holds
    a certificate that is still alive, and no two of them hold the same
    certificate, the same is true after Parse, after CloneForMessaging,
    after Deserialize, whichever way they end, and after an owner is
    released.  In such a state the certificate of an object is never a
    dangling pointer. *)
Theorem ownership_invariant (w : World) :
  well_owned w ->
  (forall e args, well_owned (snd (Parse e args w))) /\
  (forall this, well_owned (snd (CloneForMessaging this w))) /\
  (forall pkg e ctx, well_owned (snd (Deserialize pkg e ctx w))) /\
  (forall owner, well_owned (run (OpRelease owner) w)) /\
  (forall h a, get h w = Some a -> exists c, decoded h w = Some c).
Proof.
  intros Hw. split; [| split; [| split; [| split]]].
  - intros e args.
    exact (well_owned_decode e w _ _
             (Parse_decodes e args w w eq_refl eq_refl) Hw).
  - intros this. unfold CloneForMessaging. rewrite then_ret. cbn [snd].
    apply well_owned_copy. exact Hw.
  - intros pkg e ctx.
    destruct (Deserialize_outcome pkg e ctx w) as [(_ & _ & Hs) | (_ & Hs)];
      apply (well_owned_same _ _ Hs).
    + apply well_owned_release, well_owned_copy. exact Hw.
    + apply well_owned_release. exact Hw.
  - intros owner. cbn [run]. apply well_owned_release. exact Hw.
  - intros h a Hg. unfold decoded. rewrite Hg. unfold get in Hg.
    destruct (managed w !! shared_cert_ h) as [[m k] |] eqn:E;
      [| discriminate].
    destruct (proj2 (proj1 Hw _ _ _ E) _ Hg) as (c & n & Hc).
    exists c. rewrite Hc. reflexivity.
Qed.

End MoreTransferFacts.

Lemma toy_shared_world_well_owned : well_owned toy_shared_world.
Proof.
  split.
  - intros p m k H. unfold toy_shared_world in H. cbn [managed] in H.
    apply lookup_singleton_Some in H as [<- H]. injection H as <- <-.
    split; [lia |]. intros a Ha. injection Ha as <-.
    exists 10%nat, 0%nat. reflexivity.
  - intros p1 p2 a m1 m2 k1 k2 H1 H2 _ _.
    unfold toy_shared_world in H1, H2. cbn [managed] in H1, H2.
    apply lookup_singleton_Some in H1 as [<- _].
    apply lookup_singleton_Some in H2 as [<- _]. reflexivity.
Defined.

Lemma ownership_invariant_witness :
  well_owned toy_shared_world /\
  well_owned (snd (Parse (lib := toy) toy_env
                     [VArrayBufferView [Byte.x30; Byte.x42]]
                     toy_shared_world)) /\
  well_owned (snd (Deserialize (lib := toy) {| data_ := 1%positive |}
                     toy_env 8 toy_shared_world)) /\
  (get toy_cert toy_shared_world = Some 1%positive /\
   exists c, decoded toy_cert toy_shared_world = Some c).
Proof.
  split; [exact toy_shared_world_well_owned |].
  destruct (ownership_invariant (lib := toy) toy_shared_world
              toy_shared_world_well_owned) as (HP & _ & HD & _ & Hg).
  split; [apply HP |]. split; [apply HD |].
  split; [reflexivity |]. apply (Hg toy_cert 1%positive). reflexivity.
Defined.

(** The invariant is that of the decoder and of the transfer; GetCert does
    not keep it: two calls on one session give two ManagedX509s on the one
    certificate of the session, whose count is still one. *)
Example GetCert_twice_shares_uncounted :
  ~ well_owned
      (snd (GetCert (acc := toy_accessors) toy_env client_session
              (snd (GetCert (acc := toy_accessors) toy_env client_session
                      toy_world)))).
Proof.
  intros [_ H2].
  specialize (H2 1%positive 2%positive 2%positive
                {| cert_ := Some 2%positive |} {| cert_ := Some 2%positive |}
                1%nat 1%nat).
  assert (H : 1%positive = 2%positive);
    [apply H2; vm_compute; reflexivity | discriminate H].
Qed.

Lemma transfer_round_trip_witness :
  managed toy_shared_world !! 1%positive
    = Some ({| cert_ := Some 1%positive |}, 1%nat) /\
  v8_ok toy_shared_world /\
  fst (Deserialize (lib := toy)
         (fst (CloneForMessaging toy_cert toy_shared_world)) toy_env 7
         (snd (CloneForMessaging toy_cert toy_shared_world)))
    = Returned toy_cert /\
  same_heaps
    (run (OpRelease 1%positive)
       (snd (Deserialize (lib := toy)
               (fst (CloneForMessaging toy_cert toy_shared_world)) toy_env 7
               (snd (CloneForMessaging toy_cert toy_shared_world)))))
    toy_shared_world.
Proof.
  assert (Hp : managed toy_shared_world !! 1%positive
               = Some ({| cert_ := Some 1%positive |}, 1%nat))
    by (vm_compute; reflexivity).
  assert (Hv : v8_ok toy_shared_world) by (split; reflexivity).
  split; [exact Hp |]. split; [exact Hv |].
  pose proof (transfer_round_trip (lib := toy) toy_cert toy_env
                toy_shared_world _ _ Hp Hv) as H.
  cbv zeta in H. destruct H as (Hr & _ & _ & _ & Hs & _).
  split; [exact Hr | exact Hs].
Defined.

Lemma Deserialize_failure_consumes_package_witness :
  (forall h, fst (Deserialize (lib := toy) {| data_ := 1%positive |} toy_env 8
                    toy_shared_world) <> Returned h) /\
  managed toy_shared_world !! 1%positive
    = Some ({| cert_ := Some 1%positive |}, 1%nat) /\
  x509s (snd (Deserialize (lib := toy) {| data_ := 1%positive |} toy_env 8
                toy_shared_world))
    = drop_ref 1%positive (x509s toy_shared_world) /\
  managed (snd (Deserialize (lib := toy) {| data_ := 1%positive |} toy_env 8
                  toy_shared_world)) !! 1%positive = None.
Proof.
  assert (Hno : forall h,
            fst (Deserialize (lib := toy) {| data_ := 1%positive |} toy_env 8
                   toy_shared_world) <> Returned h)
    by (intros h; vm_compute; discriminate).
  assert (Hp : managed toy_shared_world !! 1%positive
               = Some ({| cert_ := Some 1%positive |}, 1%nat))
    by (vm_compute; reflexivity).
  split; [exact Hno |]. split; [exact Hp |].
  exact (proj2 (proj2 (Deserialize_failure_consumes_package (lib := toy)
                         {| data_ := 1%positive |} toy_env 8
                         toy_shared_world Hno))
           _ 1%positive Hp eq_refl).
Defined.

Lemma Parse_then_release_restores_witness :
  fst (Parse (lib := toy) toy_env [VArrayBufferView [Byte.x30; Byte.x42]]
         toy_world) = Returned toy_cert /\
  same_heaps
    (run (OpRelease 1%positive)
       (snd (Parse (lib := toy) toy_env
               [VArrayBufferView [Byte.x30; Byte.x42]] toy_world)))
    toy_world.
Proof.
  assert (H : fst (Parse (lib := toy) toy_env
                     [VArrayBufferView [Byte.x30; Byte.x42]] toy_world)
              = Returned toy_cert) by (vm_compute; reflexivity).
  split; [exact H |].
  exact (Parse_then_release_restores (lib := toy) toy_env _ toy_world
           toy_cert H).
Defined.

(** * Further properties of the reference counts *)

Section MoreCountingFacts.
Context `{lib : Collaborators}.

Lemma ManagedX509_assign_run (this that : ManagedX509) (w : World) :
  fst (ManagedX509_assign this that w) = {| cert_ := cert_ that |} /\
  managed (snd (ManagedX509_assign this that w)) = managed w /\
  x509s (snd (ManagedX509_assign this that w))
    = match cert_ that with
      | Some p => add_ref p
      | None => fun h => h
      end (match cert_ this with
           | Some o => drop_ref o (x509s w)
           | None => x509s w
           end).
Proof.
  unfold ManagedX509_assign, X509Pointer_reset, X509Pointer_delete.
  destruct (cert_ this), (cert_ that); cbn; auto.
Qed.

Lemma drop_add_ref (a : addr) (c : X509) (n : nat)
    (h : gmap addr (X509 * nat)) :
  h !! a = Some (c, S n) -> drop_ref a (add_ref a h) = h.
Proof.
  intros H. apply map_eq. intros b.
  rewrite lookup_drop_ref, lookup_add_ref.
  destruct (decide (a = b)) as [<- | _]; [| reflexivity].
  rewrite H. reflexivity.
Qed.

(** X14.  operator= moves one reference.  The wrapper assigned to holds the
    certificate of the other afterwards; the certificate it held before
    loses one reference, as X509_free takes it, the certificate it holds
    now has one more, and no other certificate and no ManagedX509 is
    touched.  When both hold the same certificate (a wrapper assigned to
    itself) the count is as before if the certificate had at least two
    references, and the certificate is destroyed if it had one: the old
    pointer is freed before X509_up_ref runs. *)
Theorem ManagedX509_assign_moves_one_reference (this that : ManagedX509)
    (w : World) :
  fst (ManagedX509_assign this that w) = {| cert_ := cert_ that |} /\
  managed (snd (ManagedX509_assign this that w)) = managed w /\
  (forall b : addr,
     cert_ this <> Some b -> cert_ that <> Some b ->
     x509s (snd (ManagedX509_assign this that w)) !! b = x509s w !! b) /\
  (forall o : addr,
     cert_ this = Some o -> cert_ that <> Some o ->
     x509s (snd (ManagedX509_assign this that w)) !! o
       = drop_ref o (x509s w) !! o) /\
  (forall (p : addr) (c : X509) (n : nat),
     cert_ that = Some p -> cert_ this <> Some p ->
     x509s w !! p = Some (c, n) ->
     x509s (snd (ManagedX509_assign this that w)) !! p = Some (c, S n)) /\
  (forall (p : addr) (c : X509) (n : nat),
     cert_ this = Some p -> cert_ that = Some p ->
     x509s w !! p = Some (c, n) ->
     x509s (snd (ManagedX509_assign this that w)) !! p
       = match n with
         | S (S _) => Some (c, n)
         | _ => None
         end).
Proof.
  destruct (ManagedX509_assign_run this that w) as (Hr & Hm & Hx).
  split; [exact Hr |]. split; [exact Hm |]. rewrite Hx. clear Hr Hm Hx.
  split; [| split; [| split]].
  - intros b Hthis Hthat.
    destruct (cert_ that) as [p |], (cert_ this) as [o |];
      rewrite ?lookup_add_ref, ?lookup_drop_ref;
      repeat match goal with
             | |- context [decide (?x = b)] =>
                 destruct (decide (x = b)) as [-> | _]; [congruence |]
             end; reflexivity.
  - intros o -> Hthat.
    destruct (cert_ that) as [p |]; [| reflexivity].
    rewrite lookup_add_ref.
    destruct (decide (p = o)) as [-> | _]; [congruence | reflexivity].
  - intros p c n -> Hthis Hp. rewrite lookup_add_ref.
    destruct (decide (p = p)) as [_ | Hne]; [| destruct Hne; reflexivity].
    destruct (cert_ this) as [o |]; [| rewrite Hp; reflexivity].
    rewrite lookup_drop_ref.
    destruct (decide (o = p)) as [-> | _]; [congruence |].
    rewrite Hp. reflexivity.
  - intros p c n -> -> Hp. rewrite lookup_add_ref, lookup_drop_ref.
    destruct (decide (p = p)) as [_ | Hne]; [| destruct Hne; reflexivity].
    rewrite Hp. destruct n as [| [| n]]; reflexivity.
Qed.

(** X15.  When v8 cannot build the object for the leading certificate,
    GetPeerCert throws with no ManagedX509 left behind and an empty error
    queue, and the pointer it held is freed.  On a server-side call that
    gives back the reference SSL_get_peer_certificate had taken: the
    certificates are as before.  When the leading certificate is entry 0
    of the chain, which the session only lends, the free takes a reference
    away from the certificate of the session. *)
Theorem GetPeerCert_first_wrap_failure (e : Environment) (ssl : SSL)
    (flag : Z) (w : World) (a : addr) :
  leading (is_server_flag flag) ssl = Some a ->
  ~ v8_ok w ->
  fst (GetPeerCert e ssl flag w) = Threw PendingException /\
  managed (snd (GetPeerCert e ssl flag w)) = managed w /\
  error_queue (snd (GetPeerCert e ssl flag w)) = [] /\
  (forall (c : X509) (n : nat),
     is_server_flag flag = true -> peer_certificate ssl = Some a ->
     x509s w !! a = Some (c, S n) ->
     x509s (snd (GetPeerCert e ssl flag w)) = x509s w) /\
  ((if is_server_flag flag then peer_certificate ssl else None) = None ->
   x509s (snd (GetPeerCert e ssl flag w)) = drop_ref a (x509s w)).
Proof.
  intros Hlead Hv8.
  pose proof (GetPeerCert_unfold e ssl flag w) as HU. cbv zeta in HU.
  rewrite HU. clear HU. rewrite Hlead. cbn [fst snd].
  change (x509s (snd (ERR_clear_error ?W))) with (x509s W).
  change (managed (snd (ERR_clear_error ?W))) with (managed W).
  change (error_queue (snd (ERR_clear_error ?W))) with (@nil (Z * bool)).
  destruct (peer_certificate_heaps ssl (is_server_flag flag) w) as [Hx1 Hm1].
  destruct (peer_certificate_state ssl (is_server_flag flag) w)
    as (Hiso & _).
  remember (snd ((if is_server_flag flag then SSL_get_peer_certificate ssl
                  else ret None) w)) as w1 eqn:Hw1.
  clear Hw1.
  assert (Hv1 : ~ v8_ok w1).
  { unfold v8_ok in *. rewrite Hiso. exact Hv8. }
  rewrite (bind_run _ _ _ _ _ (surjective_pairing (New e (Some a) w1))).
  destruct (New_outcome e (Some a) w1)
    as (_ & [(Hok & _) | (_ & Hr & Hx & Hm)]); [contradiction |].
  rewrite Hr. cbn [ret fst snd]. rewrite Hx, Hm, Hx1, Hm1.
  split; [reflexivity |]. split; [reflexivity |]. split; [reflexivity |].
  split.
  - intros c n -> -> Hc. exact (drop_add_ref a c n _ Hc).
  - intros ->. reflexivity.
Qed.

End MoreCountingFacts.

Lemma GetPeerCert_first_wrap_failure_witness :
  (leading (is_server_flag (lib := toy) 1) server_session = Some 1%positive /\
   ~ v8_ok toy_failing_world /\
   fst (GetPeerCert (lib := toy) toy_env server_session 1 toy_failing_world)
     = Threw PendingException /\
   x509s (snd (GetPeerCert (lib := toy) toy_env server_session 1
                 toy_failing_world)) = x509s toy_failing_world) /\
  (leading (is_server_flag (lib := toy) 0) client_session = Some 1%positive /\
   x509s (snd (GetPeerCert (lib := toy) toy_env client_session 0
                 toy_failing_world))
     = drop_ref 1%positive (x509s toy_failing_world)).
Proof.
  assert (Hv : ~ v8_ok toy_failing_world).
  { intros [_ H]. vm_compute in H. discriminate H. }
  split.
  - assert (Hl : leading (is_server_flag (lib := toy) 1) server_session
                 = Some 1%positive) by reflexivity.
    split; [exact Hl |]. split; [exact Hv |].
    destruct (GetPeerCert_first_wrap_failure (lib := toy) toy_env
                server_session 1 toy_failing_world 1%positive Hl Hv)
      as (Hr & _ & _ & Hs & _).
    split; [exact Hr |].
    apply (Hs 10%nat 0%nat); reflexivity.
  - assert (Hl : leading (is_server_flag (lib := toy) 0) client_session
                 = Some 1%positive) by reflexivity.
    split; [exact Hl |].
    destruct (GetPeerCert_first_wrap_failure (lib := toy) toy_env
                client_session 0 toy_failing_world 1%positive Hl Hv)
      as (_ & _ & _ & _ & Hc).
    apply Hc. reflexivity.
Defined.

Lemma New_takes_the_pointer_witness :
  (v8_ok toy_world /\
   exists h : X509Certificate,
     fst (New (lib := toy) toy_env (Some 1%positive) toy_world) = Returned h /\
     get h (snd (New (lib := toy) toy_env (Some 1%positive) toy_world))
       = Some 1%positive /\
     x509s (snd (New (lib := toy) toy_env (Some 1%positive) toy_world))
       = x509s toy_world) /\
  (~ v8_ok toy_failing_world /\
   fst (New (lib := toy) toy_env (Some 1%positive) toy_failing_world)
     = Threw PendingException /\
   x509s (snd (New (lib := toy) toy_env (Some 1%positive) toy_failing_world))
     = drop_ref 1%positive (x509s toy_failing_world)).
Proof.
  assert (Hv : v8_ok toy_world) by (split; reflexivity).
  assert (Hf : ~ v8_ok toy_failing_world).
  { intros [_ H]. vm_compute in H. discriminate H. }
  split.
  - split; [exact Hv |].
    destruct (proj1 (New_takes_the_pointer (lib := toy) toy_env
                       (Some 1%positive) toy_world) Hv)
      as (h & Hr & _ & Hg & _ & _ & Hx).
    exists h. split; [exact Hr |]. split; [exact Hg | exact Hx].
  - split; [exact Hf |].
    destruct (proj1 (proj2 (New_takes_the_pointer (lib := toy) toy_env
                              (Some 1%positive) toy_failing_world)) Hf)
      as (Hr & _ & Hx).
    split; [exact Hr | exact Hx].
Defined.

Lemma Parse_leaves_one_certificate_or_nothing_witness :
  (fst (Parse (lib := toy) toy_env [VArrayBufferView [Byte.x30; Byte.x42]]
          toy_world) = Returned toy_cert /\
   exists (a : addr) (c : X509),
     x509s toy_world !! a = None /\
     x509s (snd (Parse (lib := toy) toy_env
                   [VArrayBufferView [Byte.x30; Byte.x42]] toy_world))
       = <[a := (c, 1%nat)]> (x509s toy_world) /\
     decoded toy_cert
       (snd (Parse (lib := toy) toy_env
               [VArrayBufferView [Byte.x30; Byte.x42]] toy_world))
       = Some c) /\
  ((forall h, fst (Parse (lib := toy) toy_env [VArrayBufferView [Byte.x41]]
                     toy_world) <> Returned h) /\
   x509s (snd (Parse (lib := toy) toy_env [VArrayBufferView [Byte.x41]]
                 toy_world)) = x509s toy_world).
Proof.
  split.
  - assert (H : fst (Parse (lib := toy) toy_env
                       [VArrayBufferView [Byte.x30; Byte.x42]] toy_world)
                = Returned toy_cert) by (vm_compute; reflexivity).
    split; [exact H |].
    destruct (proj1 (Parse_leaves_one_certificate_or_nothing (lib := toy)
                       toy_env [VArrayBufferView [Byte.x30; Byte.x42]]
                       toy_world) toy_cert H)
      as (_ & _ & a & c & Ha & Hx & _ & Hd).
    exists a, c. split; [exact Ha |]. split; [exact Hx | exact Hd].
  - assert (H : forall h,
              fst (Parse (lib := toy) toy_env [VArrayBufferView [Byte.x41]]
                     toy_world) <> Returned h)
      by (intros h; vm_compute; discriminate).
    split; [exact H |].
    exact (proj1 (proj2 (Parse_leaves_one_certificate_or_nothing (lib := toy)
                           toy_env [VArrayBufferView [Byte.x41]] toy_world)
                    H)).
Defined.

Lemma ManagedX509_assign_moves_one_reference_witness :
  x509s toy_shared_world !! 1%positive = Some (10%nat, 1%nat) /\
  x509s (snd (ManagedX509_assign (lib := toy)
                {| cert_ := Some 1%positive |} {| cert_ := Some 1%positive |}
                toy_shared_world)) !! 1%positive = None /\
  x509s (snd (ManagedX509_assign (lib := toy)
                {| cert_ := None |} {| cert_ := Some 1%positive |}
                toy_shared_world)) !! 1%positive = Some (10%nat, 2%nat).
Proof.
  assert (H : x509s toy_shared_world !! 1%positive = Some (10%nat, 1%nat))
    by (vm_compute; reflexivity).
  split; [exact H |].
  destruct (ManagedX509_assign_moves_one_reference (lib := toy)
              {| cert_ := Some 1%positive |} {| cert_ := Some 1%positive |}
              toy_shared_world) as (_ & _ & _ & _ & _ & Hself).
  destruct (ManagedX509_assign_moves_one_reference (lib := toy)
              {| cert_ := None |} {| cert_ := Some 1%positive |}
              toy_shared_world) as (_ & _ & _ & _ & Hmove & _).
  split.
  - exact (Hself 1%positive 10%nat 1%nat eq_refl eq_refl H).
  - apply (Hmove 1%positive 10%nat 1%nat eq_refl); [discriminate | exact H].
Defined.
